(** * Open-WebUI pipelines: the Azure DeepSeek-R1 and Azure o1-mini adapters

    A shallow embedding of [src/Azure_DeepSeekR1.py] and
    [src/Azure_Openai_Chatgpt_o1mini.py].  Python values, exceptions and
    dictionaries are modelled in [Module Py]; the effects of a [pipe] call
    (mutation of the caller's [body] dict, calls to the remote provider,
    raised exceptions) are threaded through the state-and-exception monad of
    [Module Eff].  The remote services are oracles supplied as arguments; every
    call to them is recorded in the state, so "a network attempt was made"
    is an observable fact of the model. *)

From Stdlib Require Import String Ascii List ZArith Bool Lia FunctionalExtensionality.
Import ListNotations.
Open Scope string_scope.
Set Warnings "-register-all".

Module Py.

(** Python values as they reach [pipe]: JSON-like data.  A float is kept by
    its Python [repr] (e.g. "0.5"); a dict is an association list in
    insertion order, as a Python dict iterates. *)
Inductive pyval :=
| PNone
| PBool (b : bool)
| PInt (z : Z)
| PFloat (lit : string)
| PStr (s : string)
| PList (l : list pyval)
| PDict (d : list (string * pyval)).

Definition dict := list (string * pyval).

(** Python truthiness ([if v:]). *)
Definition truthy (v : pyval) : bool :=
  match v with
  | PNone => false
  | PBool b => b
  | PInt z => negb (Z.eqb z 0)
  | PFloat lit => negb (String.eqb lit "0.0" || String.eqb lit "-0.0")
  | PStr s => negb (String.eqb s "")
  | PList l => match l with [] => false | _ => true end
  | PDict d => match d with [] => false | _ => true end
  end.

(** [v == "s"] for a string literal [s]: only a [str] can be equal to it. *)
Definition eq_str (v : pyval) (s : string) : bool :=
  match v with PStr t => String.eqb t s | _ => false end.

(** [isinstance(v, str)] *)
Definition is_str (v : pyval) : bool :=
  match v with PStr _ => true | _ => false end.

(** The exception classes that the two pipelines can meet. *)
Inductive exc_class :=
| KeyError
| AttributeError
| TypeError
| UnboundLocalError
| AzureHttpResponseError      (* azure.core.exceptions.HttpResponseError *)
| AzureServiceRequestError    (* azure.core.exceptions.ServiceRequestError *)
| ReqConnectionError          (* requests.ConnectionError *)
| ReqTimeout                  (* requests.Timeout *)
| ReqHTTPError                (* requests.HTTPError, from raise_for_status *)
| ReqChunkedEncodingError     (* requests.ChunkedEncodingError, reading a streamed body *)
| ReqContentDecodingError     (* requests.ContentDecodingError, reading a streamed body *)
| ReqJSONDecodeError.         (* requests.JSONDecodeError, from response.json() *)

(** An exception instance: its class and its [str(e)]. *)
Record exc := Exc { exc_cls : exc_class; exc_str : string }.

(** [isinstance(e, requests.RequestException)] *)
Definition is_request_exception (e : exc) : bool :=
  match exc_cls e with
  | ReqConnectionError | ReqTimeout | ReqHTTPError | ReqJSONDecodeError
  | ReqChunkedEncodingError | ReqContentDecodingError => true
  | _ => false
  end.

(** [isinstance(e, ValueError)]: requests' JSONDecodeError derives from
    json.JSONDecodeError, hence from ValueError. *)
Definition is_value_error (e : exc) : bool :=
  match exc_cls e with ReqJSONDecodeError => true | _ => false end.

(** The result of a Python computation: a value or a raised exception. *)
Inductive outcome (A : Type) :=
| Ok (a : A)
| Raise (e : exc).
Arguments Ok {A} a.
Arguments Raise {A} e.

(** [d.get(k)] as an option, [k in d] and dict lookup. *)
Fixpoint dict_get (d : dict) (k : string) : option pyval :=
  match d with
  | [] => None
  | (k', v) :: r => if String.eqb k k' then Some v else dict_get r k
  end.

Definition has_key (d : dict) (k : string) : bool :=
  match dict_get d k with Some _ => true | None => false end.

(** [d.get(k, default)] *)
Definition dict_get_default (d : dict) (k : string) (default : pyval) : pyval :=
  match dict_get d k with Some v => v | None => default end.

(** [d.pop(k, None)] as a mutation: the entry is removed, the others keep
    their order. *)
Fixpoint dict_pop (d : dict) (k : string) : dict :=
  match d with
  | [] => []
  | (k', v) :: r => if String.eqb k k' then r else (k', v) :: dict_pop r k
  end.

(** [d[k] = v]: an existing key keeps its position, a new key is appended. *)
Fixpoint dict_set (d : dict) (k : string) (v : pyval) : dict :=
  match d with
  | [] => [(k, v)]
  | (k', v') :: r => if String.eqb k k' then (k', v) :: r else (k', v') :: dict_set r k v
  end.

(** [{k: v for k, v in d.items() if k in allowed}] *)
Definition filter_keys (allowed : list string) (d : dict) : dict :=
  filter (fun kv => existsb (String.eqb (fst kv)) allowed) d.

(** [str(...)] of Python values, as [repr] of containers shows them. *)
Definition dq : string := String (ascii_of_nat 34) EmptyString.
Definition sq : string := String (ascii_of_nat 39) EmptyString.
Definition bs : string := String (ascii_of_nat 92) EmptyString.

Fixpoint uint_digits (d : Decimal.uint) : string :=
  match d with
  | Decimal.Nil => ""
  | Decimal.D0 r => "0" ++ uint_digits r
  | Decimal.D1 r => "1" ++ uint_digits r
  | Decimal.D2 r => "2" ++ uint_digits r
  | Decimal.D3 r => "3" ++ uint_digits r
  | Decimal.D4 r => "4" ++ uint_digits r
  | Decimal.D5 r => "5" ++ uint_digits r
  | Decimal.D6 r => "6" ++ uint_digits r
  | Decimal.D7 r => "7" ++ uint_digits r
  | Decimal.D8 r => "8" ++ uint_digits r
  | Decimal.D9 r => "9" ++ uint_digits r
  end.

Definition z_str (z : Z) : string :=
  match Z.to_int z with
  | Decimal.Pos d => uint_digits d
  | Decimal.Neg d => "-" ++ uint_digits d
  end.

Definition string_has (c : ascii) (s : string) : bool :=
  existsb (Ascii.eqb c) (list_ascii_of_string s).

(** A lowercase hexadecimal digit. *)
Definition hex_digit (n : nat) : string :=
  String (ascii_of_nat (if Nat.ltb n 10 then 48 + n else 87 + n)) EmptyString.

(** [repr] of a str, whose characters are the code points below 256 (one
    per [ascii]): single quotes unless the text holds a single quote and no
    double quote; backslashes and the chosen quote are escaped, tab, newline
    and carriage return become [\t], [\n], [\r], and the other
    non-printable code points (below 32, 127 to 160, and 173) become
    [\xNN]. *)
Definition repr_str (s : string) : string :=
  let q := if string_has (ascii_of_nat 39) s && negb (string_has (ascii_of_nat 34) s)
           then ascii_of_nat 34 else ascii_of_nat 39 in
  let esc (c : ascii) : string :=
    let n := nat_of_ascii c in
    if Ascii.eqb c (ascii_of_nat 92) || Ascii.eqb c q then String (ascii_of_nat 92) (String c EmptyString)
    else if Nat.eqb n 9 then bs ++ "t"
    else if Nat.eqb n 10 then bs ++ "n"
    else if Nat.eqb n 13 then bs ++ "r"
    else if Nat.ltb n 32 || (Nat.leb 127 n && Nat.leb n 160) || Nat.eqb n 173
    then bs ++ "x" ++ hex_digit (n / 16) ++ hex_digit (n mod 16)
    else String c EmptyString in
  String q (String.concat "" (map esc (list_ascii_of_string s)) ++ String q EmptyString).

Fixpoint repr (v : pyval) : string :=
  match v with
  | PNone => "None"
  | PBool true => "True"
  | PBool false => "False"
  | PInt z => z_str z
  | PFloat lit => lit
  | PStr s => repr_str s
  | PList l => "[" ++ String.concat ", " (map repr l) ++ "]"
  | PDict d => "{" ++ String.concat ", " (map (fun kv => repr_str (fst kv) ++ ": " ++ repr (snd kv)) d) ++ "}"
  end.

(** [str(v)]: the text itself for a str, [repr] otherwise. *)
Definition str (v : pyval) : string :=
  match v with PStr s => s | _ => repr v end.

(** [os.getenv(name, default)] *)
Definition getenv (env : string -> option string) (name default : string) : string :=
  match env name with Some v => v | None => default end.

(** [d[k]] on a dict: a missing key raises [KeyError], whose [str] is the
    [repr] of the key. *)
Definition getitem (d : dict) (k : string) : outcome pyval :=
  match dict_get d k with
  | Some v => Ok v
  | None => Raise (Exc KeyError (repr_str k))
  end.

(** [json.dumps] of a str (default [ensure_ascii=True]). *)

Definition json_char (c : ascii) : string :=
  let n := nat_of_ascii c in
  if Nat.eqb n 34 then bs ++ dq
  else if Nat.eqb n 92 then bs ++ bs
  else if Nat.eqb n 10 then bs ++ "n"
  else if Nat.eqb n 13 then bs ++ "r"
  else if Nat.eqb n 9 then bs ++ "t"
  else if Nat.eqb n 8 then bs ++ "b"
  else if Nat.eqb n 12 then bs ++ "f"
  else if Nat.ltb n 32 || Nat.leb 127 n
  then bs ++ "u00" ++ hex_digit (n / 16) ++ hex_digit (n mod 16)
  else String c EmptyString.

Definition json_str (s : string) : string :=
  dq ++ String.concat "" (map json_char (list_ascii_of_string s)) ++ dq.

(** [json.dumps({"error": m})] *)
Definition error_envelope (m : string) : string :=
  "{" ++ json_str "error" ++ ": " ++ json_str m ++ "}".

End Py.

(** * Effects of a [pipe] call *)
Module Eff.
Import Py.

(** Messages of [azure.ai.inference.models]. *)
Inductive azmsg :=
| SystemMessage (content : pyval)
| UserMessage (content : pyval)
| AssistantMessage (content : pyval).

(** What a [pipe] call returns to its caller. *)
Inductive PipeResult :=
| RStr (s : string)            (* a str *)
| RIter (lines : list string)  (* a lazy iterator, given by what it yields *)
| RObj (v : pyval).            (* any other object, e.g. a parsed JSON body *)

(** A call that leaves the process: [ChatCompletionsClient.complete] of the
    DeepSeek-R1 pipeline, or [requests.post] of the o1-mini pipeline. *)
Inductive netcall :=
| AzureComplete (endpoint credential model : string) (messages : list azmsg)
    (stream : bool) (params : dict)
| HttpPost (url : string) (headers json : dict) (stream : pyval).

(** Python objects the caller holds references to are addresses in a heap;
    the only such object [pipe] mutates is its [body] dict. *)
Definition loc := nat.

Record state := St {
  heap : loc -> dict;
  calls : list netcall
}.

Definition M (A : Type) := state -> outcome A * state.

Definition ret {A} (a : A) : M A := fun s => (Ok a, s).

Definition bind {A B} (m : M A) (f : A -> M B) : M B :=
  fun s => match m s with
           | (Ok a, s') => f a s'
           | (Raise e, s') => (Raise e, s')
           end.

Definition throw {A} (e : exc) : M A := fun s => (Raise e, s).

(** A pure computation that may raise. *)
Definition lift {A} (o : outcome A) : M A := fun s => (o, s).

(** [try: m except Exception as e: h(e)] (every modelled exception is an
    [Exception]); the effects of [m] before the raise persist. *)
Definition try_except {A} (m : M A) (h : exc -> M A) : M A :=
  fun s => match m s with
           | (Raise e, s') => h e s'
           | r => r
           end.

Notation "x <- m ;; k" := (bind m (fun x => k))
  (at level 61, m at next level, right associativity).
Notation "' p <- m ;; k" := (bind m (fun x => match x with p => k end))
  (at level 61, p pattern, m at next level, right associativity).
Notation "m ;;; k" := (bind m (fun _ => k)) (at level 61, right associativity).

Definition read (l : loc) : M dict := fun s => (Ok (heap s l), s).

Definition write (l : loc) (d : dict) : M unit :=
  fun s => (Ok tt, St (fun l' => if Nat.eqb l' l then d else heap s l') (calls s)).

Definition log_call (c : netcall) : M unit :=
  fun s => (Ok tt, St (heap s) (calls s ++ [c])%list).

(** Monadic bind for pure computations that may raise. *)
Definition obind {A B} (o : outcome A) (f : A -> outcome B) : outcome B :=
  match o with Ok a => f a | Raise e => Raise e end.

Notation "x <-! o ;; k" := (obind o (fun x => k))
  (at level 61, o at next level, right associativity).

End Eff.

(** * [src/Azure_DeepSeekR1.py] *)
Module DeepSeekR1.
Import Py Eff.

(** [pop_system_message]: the loop keeps the content of the last
    system-role entry and collects the other entries in order. *)
Fixpoint pop_system_message_loop (messages : list dict) (system_message : pyval)
    (updated_messages : list dict) : outcome (pyval * list dict) :=
  match messages with
  | [] => Ok (system_message, updated_messages)
  | message :: rest =>
      role <-! getitem message "role" ;;
      if eq_str role "system" then
        c <-! getitem message "content" ;;
        pop_system_message_loop rest c updated_messages
      else pop_system_message_loop rest system_message (updated_messages ++ [message])%list
  end.

Definition pop_system_message (messages : list dict) : outcome (pyval * list dict) :=
  pop_system_message_loop messages (PStr "") [].

(** One element of the comprehension building [DeepSeekR1_messages]. *)
Definition to_DeepSeekR1_message (msg : dict) : outcome azmsg :=
  role <-! getitem msg "role" ;;
  if eq_str role "user" then
    c <-! getitem msg "content" ;; Ok (UserMessage c)
  else
    role' <-! getitem msg "role" ;;
    if eq_str role' "system" then
      c <-! getitem msg "content" ;; Ok (SystemMessage c)
    else
      c <-! getitem msg "content" ;; Ok (AssistantMessage c).

Fixpoint map_outcome {A B} (f : A -> outcome B) (l : list A) : outcome (list B) :=
  match l with
  | [] => Ok []
  | x :: r => y <-! f x ;; ys <-! map_outcome f r ;; Ok (y :: ys)
  end.

(** [DeepSeekR1_messages], built in [pipe] from the result of
    [pop_system_message]. *)
Definition prepare_messages (system_message : pyval) (messages : list dict)
    : outcome (list azmsg) :=
  rest <-! map_outcome to_DeepSeekR1_message messages ;;
  Ok ((if truthy system_message then [SystemMessage system_message] else []) ++ rest)%list.

Definition allowed_params : list string :=
  ["temperature"; "max_tokens"; "presence_penalty"; "frequency_penalty"; "top_p"].

Record Valves := {
  AZURE_INFERENCE_CREDENTIAL : string;
  AZURE_INFERENCE_ENDPOINT : string;
  MODEL_ID : string
}.

(** A [ChatCompletionsClient]: the endpoint and key it was built with. *)
Record Client := { cl_endpoint : string; cl_credential : string }.

Record Pipeline := { valves : Valves; client : Client }.

Definition update_client (v : Valves) : Client :=
  {| cl_endpoint := AZURE_INFERENCE_ENDPOINT v;
     cl_credential := AZURE_INFERENCE_CREDENTIAL v |}.

Definition init (env : string -> option string) : Pipeline :=
  let v := {| AZURE_INFERENCE_CREDENTIAL :=
                getenv env "AZURE_INFERENCE_CREDENTIAL" "your-azure-inference-key-here";
              AZURE_INFERENCE_ENDPOINT :=
                getenv env "AZURE_INFERENCE_ENDPOINT" "your-azure-inference-endpoint-here";
              MODEL_ID := getenv env "MODEL_ID" "DeepSeekR1" |} in
  {| valves := v; client := update_client v |}.

(** A streamed update: its [choices], each reduced to [delta.content]
    ([None] when the delta carries no content). *)
Record ChoiceUpdate := { delta_content : option string }.
Record Update := { choices : list ChoiceUpdate }.

(** The loop of [stream_response] over the updates. *)
Fixpoint collect (updates : list Update) (complete_response : string) : string :=
  match updates with
  | [] => complete_response
  | update :: rest =>
      match choices update with
      | [] => collect rest complete_response
      | c :: _ =>
          match delta_content c with
          | Some d => if negb (String.eqb d "")
                      then collect rest (complete_response ++ d)
                      else collect rest complete_response
          | None => collect rest complete_response
          end
      end
  end.

(** [on_valves_updated]: the client is rebuilt from the current valves. *)
Definition on_valves_updated (self : Pipeline) : Pipeline :=
  {| valves := valves self; client := update_client (valves self) |}.

Section Transport.

(** The provider.  A blocking call answers the contents of the choices'
    messages ([None] for a null content); a streaming call answers the updates it yields and, when the
    stream breaks while being iterated, the exception raised at that point. *)
Variable complete_blocking :
  Client -> string -> list azmsg -> dict -> outcome (list (option string)).
Variable complete_stream :
  Client -> string -> list azmsg -> dict -> outcome (list Update * option exc).

Definition client_complete (self : Pipeline) (ms : list azmsg) (params : dict)
    : M (list (option string)) :=
  log_call (AzureComplete (cl_endpoint (client self)) (cl_credential (client self))
              (MODEL_ID (valves self)) ms false params) ;;;
  lift (complete_blocking (client self) (MODEL_ID (valves self)) ms params).

Definition client_complete_stream (self : Pipeline) (ms : list azmsg) (params : dict)
    : M (list Update * option exc) :=
  log_call (AzureComplete (cl_endpoint (client self)) (cl_credential (client self))
              (MODEL_ID (valves self)) ms true params) ;;;
  lift (complete_stream (client self) (MODEL_ID (valves self)) ms params).

Definition stream_response (self : Pipeline) (ms : list azmsg) (params : dict) : M string :=
  try_except
    ('(updates, broken) <- client_complete_stream self ms params ;;
     let complete_response := collect updates "" in
     match broken with
     | Some e => throw e
     | None => ret complete_response
     end)
    (fun e => ret (error_envelope (exc_str e))).

Definition get_completion (self : Pipeline) (ms : list azmsg) (params : dict)
    : M (option string) :=
  try_except
    (response_choices <- client_complete self ms params ;;
     match response_choices with
     | result :: _ => ret result
     | [] => ret (Some "")
     end)
    (fun e => ret (Some (error_envelope (exc_str e)))).

(** A returned value that is a str or [None]. *)
Definition str_or_none (v : option string) : PipeResult :=
  match v with Some s => RStr s | None => RObj PNone end.

Definition pop_keys (body : loc) (keys : list string) : M unit :=
  fold_left (fun m key => m ;;; (b <- read body ;; write body (dict_pop b key)))
    keys (ret tt).

Definition pipe (self : Pipeline) (user_message model_id : string)
    (messages : list dict) (body : loc) : M PipeResult :=
  try_except
    (pop_keys body ["user"; "chat_id"; "title"] ;;;
     '(system_message, messages) <- lift (pop_system_message messages) ;;
     DeepSeekR1_messages <- lift (prepare_messages system_message messages) ;;
     b <- read body ;;
     let filtered_body := filter_keys allowed_params b in
     let is_stream := dict_get_default b "stream" (PBool false) in
     if truthy is_stream
     then (s <- stream_response self DeepSeekR1_messages filtered_body ;; ret (RStr s))
     else (s <- get_completion self DeepSeekR1_messages filtered_body ;; ret (str_or_none s)))
    (fun e => ret (RStr (error_envelope (exc_str e)))).

End Transport.

End DeepSeekR1.

(** * [src/Azure_Openai_Chatgpt_o1mini.py] *)
Module O1Mini.
Import Py Eff.

Record Valves := {
  AZURE_OPENAI_API_KEY : string;
  AZURE_OPENAI_ENDPOINT : string;
  AZURE_OPENAI_DEPLOYMENT_NAME : string;
  AZURE_OPENAI_API_VERSION : string
}.

Record Pipeline := { valves : Valves }.

Definition init (env : string -> option string) : Pipeline :=
  {| valves := {|
       AZURE_OPENAI_API_KEY :=
         getenv env "AZURE_OPENAI_API_KEY" "your-azure-openai-api-key-here";
       AZURE_OPENAI_ENDPOINT :=
         getenv env "AZURE_OPENAI_ENDPOINT" "https://xxx.openai.azure.com";
       AZURE_OPENAI_DEPLOYMENT_NAME :=
         getenv env "AZURE_OPENAI_DEPLOYMENT_NAME" "o1-mini";
       AZURE_OPENAI_API_VERSION :=
         getenv env "AZURE_OPENAI_API_VERSION" "2024-08-01-preview" |} |}.

Definition allowed_params : list string :=
  ["messages"; "temperature"; "role"; "content"; "contentPart"; "contentPartImage";
   "enhancements"; "data_sources"; "n"; "stream"; "stop"; "max_tokens"; "presence_penalty";
   "frequency_penalty"; "logit_bias"; "user"; "function_call"; "functions"; "tools";
   "tool_choice"; "top_p"; "log_probs"; "top_logprobs"; "response_format"; "seed"].

(** A [requests.Response]: status, reason, [response.url] (the URL as
    requests prepared it, or the final one after redirects), the body parsed
    as JSON ([None] when [response.json()] raises), the exception that
    [response.json()] then raises (a [JSONDecodeError] whose message depends
    on the text, or, for a streamed body, an error met while reading it), the
    raw text and what [iter_lines()] yields. *)
Record Response := {
  status_code : Z;
  reason : string;
  url : string;
  json_body : option pyval;
  json_error : exc;
  text : string;
  lines : list string
}.

Definition py_type_name (v : pyval) : string :=
  match v with
  | PNone => "NoneType" | PBool _ => "bool" | PInt _ => "int" | PFloat _ => "float"
  | PStr _ => "str" | PList _ => "list" | PDict _ => "dict"
  end.

(** [v.get(k, default)]: only a dict has the method. *)
Definition method_get (v : pyval) (k : string) (default : pyval) : outcome pyval :=
  match v with
  | PDict d => Ok (dict_get_default d k default)
  | _ => Raise (Exc AttributeError
                  (sq ++ py_type_name v ++ sq ++ " object has no attribute " ++ sq ++ "get" ++ sq))
  end.

(** [response.raise_for_status()] *)
Definition raise_for_status (r : Response) : outcome unit :=
  let code := status_code r in
  if (400 <=? code)%Z && (code <? 500)%Z then
    Raise (Exc ReqHTTPError (z_str code ++ " Client Error: " ++ reason r ++ " for url: " ++ url r))
  else if (500 <=? code)%Z && (code <? 600)%Z then
    Raise (Exc ReqHTTPError (z_str code ++ " Server Error: " ++ reason r ++ " for url: " ++ url r))
  else Ok tt.

(** [response.json()] *)
Definition response_json (r : Response) : outcome pyval :=
  match json_body r with
  | Some v => Ok v
  | None => Raise (json_error r)
  end.

(** Running [m] and keeping its outcome, raised or not, as a value. *)
Definition attempt {A} (m : M A) : M (outcome A) :=
  fun s => match m s with (o, s') => (Ok o, s') end.

(** [try: m except requests.RequestException as e: h(e)] *)
Definition try_except_request {A} (m : M A) (h : exc -> M A) : M A :=
  try_except m (fun e => if is_request_exception e then h e else throw e).

(** Reading the local [response] in the [except] clause when the [try]
    block raised before assigning it. *)
Definition unbound_response : exc :=
  Exc UnboundLocalError
    ("cannot access local variable " ++ sq ++ "response" ++ sq ++
     " where it is not associated with a value").

Section Transport.

(** [requests.post(url=..., json=..., headers=..., stream=...)]. *)
Variable post : string -> dict -> dict -> pyval -> outcome Response.

Definition requests_post (url : string) (headers json : dict) (stream : pyval)
    : M Response :=
  log_call (HttpPost url headers json stream) ;;;
  lift (post url headers json stream).

(** The [except requests.RequestException] clause, once [response] is bound. *)
Definition on_request_error (response : Response) (e : exc) : M PipeResult :=
  let error_message := "Request failed: " ++ exc_str e in
  match response_json response with
  | Ok error_details =>
      ret (RStr ("Error: " ++ error_message ++ " | Details: " ++ str error_details))
  | Raise e' =>
      if is_value_error e'
      then ret (RStr ("Error: " ++ error_message ++ " | Response Text: " ++ text response))
      else throw e'
  end.

Definition pipe (self : Pipeline) (user_message model_id : string)
    (messages : list dict) (body : loc) : M PipeResult :=
  let v := valves self in
  let headers := [("api-key", PStr (AZURE_OPENAI_API_KEY v));
                  ("Content-Type", PStr "application/json")] in
  let url := AZURE_OPENAI_ENDPOINT v ++ "/openai/deployments/" ++
             AZURE_OPENAI_DEPLOYMENT_NAME v ++ "/chat/completions" ++
             "?api-version=" ++ AZURE_OPENAI_API_VERSION v in
  b <- read body ;;
  (match dict_get b "user" with
   | Some u =>
       if negb (is_str u) then
         u' <- lift (method_get u "id" (PStr (str u))) ;;
         write body (dict_set b "user" u')
       else ret tt
   | None => ret tt
   end) ;;;
  b <- read body ;;
  let filtered_body := filter_keys allowed_params b in
  r <- attempt (requests_post url headers filtered_body
                  (dict_get_default filtered_body "stream" (PBool false))) ;;
  match r with
  | Raise e =>
      (* [response] was never assigned *)
      if is_request_exception e then throw unbound_response else throw e
  | Ok response =>
      try_except_request
        (lift (raise_for_status response) ;;;
         if truthy (dict_get_default filtered_body "stream" PNone)
         then ret (RIter (lines response))
         else (j <- lift (response_json response) ;; ret (RObj j)))
        (on_request_error response)
  end.

End Transport.

End O1Mini.

(** * Observations used to state the properties *)
Module Obs.
Import Py Eff DeepSeekR1.

(** The normalization steps of [DeepSeekR1.pipe] (source lines 109-119):
    [pop_system_message] followed by the building of [DeepSeekR1_messages]. *)
Definition normalize (messages : list dict) : outcome (list azmsg) :=
  p <-! pop_system_message messages ;;
  prepare_messages (fst p) (snd p).

(** A message dict carries a ["role"] and a ["content"]. *)
Definition wf_msg (m : dict) : bool := has_key m "role" && has_key m "content".

(** [message['role'] == 'system'] *)
Definition is_system_msg (m : dict) : bool :=
  match dict_get m "role" with Some r => eq_str r "system" | None => false end.

(** A message dict as the front-end sends it. *)
Definition mk_msg (role content : string) : dict :=
  [("role", PStr role); ("content", PStr content)].

Definition content_of (m : dict) : pyval := dict_get_default m "content" PNone.

Definition is_system_azmsg (a : azmsg) : bool :=
  match a with SystemMessage _ => true | _ => false end.

(** The content of the last system-role entry, [d] when there is none. *)
Fixpoint last_system_content (l : list dict) (d : pyval) : pyval :=
  match l with
  | [] => d
  | m :: r => last_system_content r (if is_system_msg m then content_of m else d)
  end.

(** Reading of the stream aggregation in the spec: the non-empty delta
    fragments of the first choice of each update, in arrival order. *)
Definition delta_fragments (updates : list Update) : list string :=
  flat_map (fun u => match choices u with
                     | [] => []
                     | c :: _ => match delta_content c with
                                 | Some d => if String.eqb d "" then [] else [d]
                                 | None => []
                                 end
                     end) updates.

(** Lines 72-74 of the o1-mini pipeline: the [user] remapping, as the dict
    it leaves in [body] (or the exception it raises). *)
Definition remap_user (b : dict) : outcome dict :=
  match dict_get b "user" with
  | Some u =>
      if negb (is_str u) then
        u' <-! O1Mini.method_get u "id" (PStr (str u)) ;; Ok (dict_set b "user" u')
      else Ok b
  | None => Ok b
  end.

(** The URL and headers that the o1-mini [pipe] builds from its valves. *)
Definition o1_url (self : O1Mini.Pipeline) : string :=
  let v := O1Mini.valves self in
  O1Mini.AZURE_OPENAI_ENDPOINT v ++ "/openai/deployments/" ++
  O1Mini.AZURE_OPENAI_DEPLOYMENT_NAME v ++ "/chat/completions" ++
  "?api-version=" ++ O1Mini.AZURE_OPENAI_API_VERSION v.

Definition o1_headers (self : O1Mini.Pipeline) : dict :=
  [("api-key", PStr (O1Mini.AZURE_OPENAI_API_KEY (O1Mini.valves self)));
   ("Content-Type", PStr "application/json")].

(** What the comprehension of [DeepSeekR1.pipe] makes of a non-system
    message that has a role and a content. *)
Definition plain_message (m : dict) : azmsg :=
  match dict_get m "role" with
  | Some r => if eq_str r "user" then UserMessage (content_of m) else AssistantMessage (content_of m)
  | None => AssistantMessage (content_of m)
  end.

(** The [KeyError] raised by [d[k]] on a dict without [k]. *)
Definition key_error (k : string) : exc := Exc KeyError (repr_str k).

(** The message of [requests.HTTPError] raised by [raise_for_status]. *)
Definition http_error_text (r : O1Mini.Response) : string :=
  z_str (O1Mini.status_code r) ++
  (if (O1Mini.status_code r <? 500)%Z then " Client Error: " else " Server Error: ") ++
  O1Mini.reason r ++ " for url: " ++ O1Mini.url r.

End Obs.

(** Closed forms of what a [pipe] call returns and leaves behind, used to
    state the run lemmas below. *)
Module DeepSeekRun.
Import Py Eff DeepSeekR1 Obs.
Local Open Scope list_scope.

Section Run.
Variable cb : Client -> string -> list azmsg -> dict -> outcome (list (option string)).
Variable cs : Client -> string -> list azmsg -> dict -> outcome (list Update * option exc).

Definition stream_result (self : Pipeline) (ms : list azmsg) (params : dict) : string :=
  match cs (client self) (MODEL_ID (valves self)) ms params with
  | Ok (u, None) => collect u ""
  | Ok (_, Some e) => error_envelope (exc_str e)
  | Raise e => error_envelope (exc_str e)
  end.

Definition completion_result (self : Pipeline) (ms : list azmsg) (params : dict) : option string :=
  match cb (client self) (MODEL_ID (valves self)) ms params with
  | Ok (result :: _) => result
  | Ok [] => Some ""
  | Raise e => Some (error_envelope (exc_str e))
  end.

Definition call_of (self : Pipeline) (ms : list azmsg) (stream : bool) (params : dict) :=
  AzureComplete (cl_endpoint (client self)) (cl_credential (client self))
    (MODEL_ID (valves self)) ms stream params.

Definition popped (b : dict) : dict := dict_pop (dict_pop (dict_pop b "user") "chat_id") "title".

Definition after_pop (body : loc) (s : state) : state :=
  St (fun l => if Nat.eqb l body then popped (heap s body) else heap s l) (calls s).

End Run.
End DeepSeekRun.

Module O1MiniRun.
Import Py Eff O1Mini Obs.
Local Open Scope list_scope.

Section Run.
Variable post : string -> dict -> dict -> pyval -> outcome Response.

Definition set_body (body : loc) (b : dict) (s : state) : state :=
  St (fun l => if Nat.eqb l body then b else heap s l) (calls s).

Definition post_call (self : Pipeline) (b : dict) : netcall :=
  let fb := filter_keys allowed_params b in
  HttpPost (o1_url self) (o1_headers self) fb (dict_get_default fb "stream" (PBool false)).

(** The outcome of the [try] statement once the request was sent. *)
Definition after_post (self : Pipeline) (b : dict) : outcome PipeResult :=
  let fb := filter_keys allowed_params b in
  match post (o1_url self) (o1_headers self) fb (dict_get_default fb "stream" (PBool false)) with
  | Raise e => if is_request_exception e then Raise unbound_response else Raise e
  | Ok response =>
      match (lift (raise_for_status response) ;;;
             if truthy (dict_get_default fb "stream" PNone)
             then ret (RIter (lines response))
             else (j <- lift (response_json response) ;; ret (RObj j))) (St (fun _ => []) []) with
      | (Ok r, _) => Ok r
      | (Raise e, _) =>
          if is_request_exception e then fst (on_request_error response e (St (fun _ => []) []))
          else Raise e
      end
  end.

End Run.
End O1MiniRun.

(** Concrete inputs: a caller's state, an empty environment and provider
    answers. *)
Module Inputs.
Import Py Eff Obs.
Local Open Scope list_scope.

(** A caller whose [body] dict lives at address 0. *)
Definition with_body (b : dict) : state :=
  St (fun l => if Nat.eqb l 0 then b else []) [].

(** No environment variable is set: every valve keeps its default. *)
Definition no_env : string -> option string := fun _ => None.

Definition connection_refused : string -> dict -> dict -> pyval -> outcome O1Mini.Response :=
  fun _ _ _ _ => Raise (Exc ReqConnectionError "Connection refused").

Definition http_answer (r : O1Mini.Response) : string -> dict -> dict -> pyval -> outcome O1Mini.Response :=
  fun _ _ _ _ => Ok r.

(** [response.url] for the default valves, and what [json.loads] raises on
    a text that does not start a JSON value. *)
Definition default_url : string :=
  "https://xxx.openai.azure.com/openai/deployments/o1-mini/chat/completions?api-version=2024-08-01-preview".

Definition not_json : exc := (Exc ReqJSONDecodeError "Expecting value: line 1 column 1 (char 0)").

Definition unauthorized : O1Mini.Response :=
  {| O1Mini.status_code := 401; O1Mini.reason := "Unauthorized";
     O1Mini.url := default_url; O1Mini.json_body := None; O1Mini.json_error := not_json;
     O1Mini.text := "Access denied"; O1Mini.lines := [] |}.

Definition no_choices : O1Mini.Response :=
  {| O1Mini.status_code := 200; O1Mini.reason := "OK"; O1Mini.url := default_url;
     O1Mini.json_body := Some (PDict [("choices", PList [])]); O1Mini.json_error := not_json;
     O1Mini.text := "{}"; O1Mini.lines := [] |}.

Definition streamed_lines : O1Mini.Response :=
  {| O1Mini.status_code := 200; O1Mini.reason := "OK"; O1Mini.url := default_url;
     O1Mini.json_body := None; O1Mini.json_error := not_json;
     O1Mini.text := ""; O1Mini.lines := ["data: a"; "data: b"] |}.

Definition blocking_answer (choices : list (option string))
  : DeepSeekR1.Client -> string -> list azmsg -> dict -> outcome (list (option string)) :=
  fun _ _ _ _ => Ok choices.

Definition unreachable_blocking
  : DeepSeekR1.Client -> string -> list azmsg -> dict -> outcome (list (option string)) :=
  fun _ _ _ _ => Raise (Exc AzureServiceRequestError "Failed to resolve host").

Definition update_of (d : option string) : DeepSeekR1.Update :=
  {| DeepSeekR1.choices := [{| DeepSeekR1.delta_content := d |}] |}.

Definition stream_answer (updates : list DeepSeekR1.Update)
  : DeepSeekR1.Client -> string -> list azmsg -> dict ->
    outcome (list DeepSeekR1.Update * option exc) :=
  fun _ _ _ _ => Ok (updates, None).

(** Scenario B of the spec, with an update without choices and one with an
    absent delta content in between. *)
Definition scenario_b : list DeepSeekR1.Update :=
  [update_of (Some "There "); {| DeepSeekR1.choices := [] |}; update_of (Some "are ");
   update_of None; update_of (Some "about "); update_of (Some ""); update_of (Some "7000.")].

End Inputs.

(** Further concrete inputs: failing providers and service answers. *)
Module ExtraInputs.
Import Py Eff Obs Inputs.
Local Open Scope list_scope.

(** A stream that yields one fragment and then breaks. *)
Definition broken_stream
  : DeepSeekR1.Client -> string -> list azmsg -> dict ->
    outcome (list DeepSeekR1.Update * option exc) :=
  fun _ _ _ _ => Ok ([update_of (Some "There ")],
                     Some (Exc AzureHttpResponseError "Connection broken")).

(** Valves set by the host after initialization. *)
Definition new_valves : DeepSeekR1.Valves :=
  {| DeepSeekR1.AZURE_INFERENCE_CREDENTIAL := "key-2";
     DeepSeekR1.AZURE_INFERENCE_ENDPOINT := "https://r1.example.net";
     DeepSeekR1.MODEL_ID := "DeepSeek-R1" |}.

Definition service_unavailable : O1Mini.Response :=
  {| O1Mini.status_code := 503; O1Mini.reason := "Service Unavailable";
     O1Mini.url := default_url;
     O1Mini.json_body := Some (PDict [("error", PStr "busy")]); O1Mini.json_error := not_json;
     O1Mini.text := "{}"; O1Mini.lines := [] |}.

(** A 502 answer whose streamed body breaks while [response.json()] reads it. *)
Definition broken_gateway : O1Mini.Response :=
  {| O1Mini.status_code := 502; O1Mini.reason := "Bad Gateway"; O1Mini.url := default_url;
     O1Mini.json_body := None;
     O1Mini.json_error := Exc ReqChunkedEncodingError "Connection broken: IncompleteRead(0 bytes read)";
     O1Mini.text := ""; O1Mini.lines := [] |}.

Definition html_page : O1Mini.Response :=
  {| O1Mini.status_code := 200; O1Mini.reason := "OK"; O1Mini.url := default_url;
     O1Mini.json_body := None;
     O1Mini.json_error := Exc ReqJSONDecodeError "Expecting value: line 1 column 1 (char 0)";
     O1Mini.text := "<html></html>"; O1Mini.lines := [] |}.

End ExtraInputs.

(** * Proofs *)
Module Normalize.
Import Py Eff DeepSeekR1 Obs.
Local Open Scope list_scope.

Lemma pop_loop_spec (l : list dict) : forall sm acc,
  Forall (fun m => wf_msg m = true) l ->
  pop_system_message_loop l sm acc =
    Ok (last_system_content l sm, acc ++ filter (fun m => negb (is_system_msg m)) l)%list.
Proof.
  induction l as [|m r IH]; intros sm acc Hwf; simpl.
  - now rewrite app_nil_r.
  - inversion Hwf as [|? ? Hm Hr]; subst.
    unfold wf_msg, has_key in Hm. unfold getitem, is_system_msg, content_of, dict_get_default.
    destruct (dict_get m "role") as [role|]; [|discriminate]. simpl.
    destruct (dict_get m "content") as [c|]; [|rewrite andb_false_r in Hm; discriminate].
    destruct (eq_str role "system"); simpl.
    + now apply IH.
    + rewrite IH by assumption. now rewrite <- app_assoc.
Qed.

Lemma last_system_content_nonsys (l : list dict) : forall d,
  Forall (fun m => is_system_msg m = false) l -> last_system_content l d = d.
Proof.
  induction l as [|m r IH]; intros d H; simpl; [reflexivity|].
  inversion H; subst. rewrite H2. now apply IH.
Qed.

Lemma last_system_content_app (pre post : list dict) (d : pyval) :
  last_system_content (pre ++ post) d = last_system_content post (last_system_content pre d).
Proof.
  revert d; induction pre as [|m r IH]; intro d; simpl; auto.
Qed.

Lemma filter_nonsys (l : list dict) :
  Forall (fun m => is_system_msg m = false) l ->
  filter (fun m => negb (is_system_msg m)) l = l.
Proof.
  induction l as [|m r IH]; intro H; simpl; [reflexivity|].
  inversion H; subst. rewrite H2. simpl. now rewrite IH.
Qed.

Lemma to_message_wf (m : dict) :
  wf_msg m = true ->
  to_DeepSeekR1_message m =
    Ok (if is_system_msg m then SystemMessage (content_of m)
        else match dict_get m "role" with
             | Some r => if eq_str r "user" then UserMessage (content_of m)
                         else AssistantMessage (content_of m)
             | None => AssistantMessage (content_of m)
             end).
Proof.
  unfold wf_msg, has_key, to_DeepSeekR1_message, is_system_msg, content_of,
    getitem, dict_get_default.
  destruct (dict_get m "role") as [r|]; [|discriminate].
  destruct (dict_get m "content") as [c|]; [|now rewrite andb_false_r].
  intros _; simpl.
  destruct r; simpl; try reflexivity.
  destruct (String.eqb s "user") eqn:Eu; destruct (String.eqb s "system") eqn:Es; try reflexivity.
  apply String.eqb_eq in Eu; apply String.eqb_eq in Es; congruence.
Qed.

Lemma map_outcome_wf (l : list dict) :
  Forall (fun m => wf_msg m = true) l ->
  exists rest, map_outcome to_DeepSeekR1_message l = Ok rest /\
    Forall2 (fun m a => to_DeepSeekR1_message m = Ok a) l rest.
Proof.
  induction l as [|m r IH]; intro H; simpl.
  - exists []; split; constructor.
  - inversion H; subst. destruct (IH H3) as [rest [E F]].
    rewrite (to_message_wf m H2). simpl. rewrite E. simpl.
    eexists; split; [reflexivity|]. constructor; [apply to_message_wf; assumption|exact F].
Qed.

Lemma converted_nonsys (l : list dict) (rest : list azmsg) :
  Forall (fun m => wf_msg m = true /\ is_system_msg m = false) l ->
  Forall2 (fun m a => to_DeepSeekR1_message m = Ok a) l rest ->
  Forall (fun a => is_system_azmsg a = false) rest.
Proof.
  intros H F. induction F as [|m a l' rest' Hma F IH]; constructor.
  - inversion H as [|? ? [Hw Hs] _]; subst.
    rewrite (to_message_wf m Hw), Hs in Hma. injection Hma as <-.
    destruct (dict_get m "role") as [r|]; [destruct (eq_str r "user")|]; reflexivity.
  - apply IH. now inversion H.
Qed.

(** The normalization of a well-formed list in which [S] is the last system
    entry. *)
Lemma normalize_last_system (pre post : list dict) (S : dict) :
  Forall (fun m => wf_msg m = true) (pre ++ S :: post) ->
  is_system_msg S = true ->
  Forall (fun m => is_system_msg m = false) post ->
  exists rest,
    Forall2 (fun m a => to_DeepSeekR1_message m = Ok a)
      (filter (fun m => negb (is_system_msg m)) pre ++ post) rest /\
    normalize (pre ++ S :: post) =
      Ok ((if truthy (content_of S) then [SystemMessage (content_of S)] else []) ++ rest).
Proof.
  intros Hwf HS Hpost.
  unfold normalize, pop_system_message.
  rewrite (pop_loop_spec _ _ _ Hwf). simpl.
  rewrite last_system_content_app. simpl. rewrite HS.
  rewrite last_system_content_nonsys by assumption.
  rewrite filter_app. simpl. rewrite HS. simpl. rewrite (filter_nonsys post Hpost).
  assert (Hw : Forall (fun m => wf_msg m = true)
                 (filter (fun m => negb (is_system_msg m)) pre ++ post)).
  { apply Forall_app in Hwf as [Hpre Hsp]. inversion Hsp; subst.
    apply Forall_app; split; [|assumption].
    apply Forall_forall; intros x Hx. apply filter_In in Hx as [Hx _].
    eapply Forall_forall in Hpre; eassumption. }
  destruct (map_outcome_wf _ Hw) as [rest [E F]].
  exists rest; split; [exact F|].
  unfold prepare_messages. rewrite E. reflexivity.
Qed.

End Normalize.

Module RunDeepSeek.
Import Py Eff DeepSeekR1 Obs DeepSeekRun.
Local Open Scope list_scope.

Section Run.
Variable cb : Client -> string -> list azmsg -> dict -> outcome (list (option string)).
Variable cs : Client -> string -> list azmsg -> dict -> outcome (list Update * option exc).

Lemma stream_response_run self ms params s :
  stream_response cs self ms params s =
    (Ok (stream_result cs self ms params), St (heap s) (calls s ++ [call_of self ms true params])).
Proof.
  unfold stream_response, stream_result, try_except, bind, client_complete_stream,
    log_call, lift, ret, throw, call_of; simpl.
  destruct (cs _ _ _ _) as [[u [e|]]|e]; reflexivity.
Qed.

Lemma get_completion_run self ms params s :
  get_completion cb self ms params s =
    (Ok (completion_result cb self ms params), St (heap s) (calls s ++ [call_of self ms false params])).
Proof.
  unfold get_completion, completion_result, try_except, bind, client_complete,
    log_call, lift, ret, throw, call_of; simpl.
  destruct (cb _ _ _ _) as [[|r rs]|e]; reflexivity.
Qed.

Lemma pop_keys_run body s :
  pop_keys body ["user"; "chat_id"; "title"] s =
    (Ok tt, St (fun l => if Nat.eqb l body then popped (heap s body) else heap s l) (calls s)).
Proof.
  unfold pop_keys, popped, bind, read, write, ret; simpl.
  rewrite !Nat.eqb_refl. do 3 f_equal.
  extensionality l. destruct (Nat.eqb l body); reflexivity.
Qed.

Lemma ds_pipe_run self um mid messages body s :
  pipe cb cs self um mid messages body s =
    let b := popped (heap s body) in
    match normalize messages with
    | Raise e => (Ok (RStr (error_envelope (exc_str e))), after_pop body s)
    | Ok ds =>
        let params := filter_keys allowed_params b in
        if truthy (dict_get_default b "stream" (PBool false))
        then (Ok (RStr (stream_result cs self ds params)),
              St (heap (after_pop body s)) (calls s ++ [call_of self ds true params]))
        else (Ok (str_or_none (completion_result cb self ds params)),
              St (heap (after_pop body s)) (calls s ++ [call_of self ds false params]))
    end.
Proof.
  unfold pipe, try_except, bind, lift, read, ret.
  rewrite pop_keys_run. fold (after_pop body s). unfold normalize, obind.
  destruct (pop_system_message messages) as [[sm ms]|e]; simpl; [|reflexivity].
  destruct (prepare_messages sm ms) as [ds|e]; simpl; [|reflexivity].
  rewrite Nat.eqb_refl.
  destruct (truthy _).
  - rewrite stream_response_run. reflexivity.
  - rewrite get_completion_run. reflexivity.
Qed.

End Run.
End RunDeepSeek.

Module RunO1Mini.
Import Py Eff O1Mini Obs O1MiniRun.
Local Open Scope list_scope.

Section Run.
Variable post : string -> dict -> dict -> pyval -> outcome Response.

Lemma pipe_user_raise self um mid messages body s e :
  remap_user (heap s body) = Raise e ->
  pipe post self um mid messages body s = (Raise e, s).
Proof.
  unfold remap_user, pipe, bind, read, lift, obind.
  destruct (dict_get (heap s body) "user") as [u|]; [|discriminate].
  destruct (negb (is_str u)); [|discriminate].
  destruct (method_get u "id" (PStr (str u))); [discriminate|].
  intros H; injection H as ->. reflexivity.
Qed.

Lemma o1_pipe_run self um mid messages body s b :
  remap_user (heap s body) = Ok b ->
  pipe post self um mid messages body s =
    (after_post post self b,
     St (heap (set_body body b s)) (calls s ++ [post_call self b])).
Proof.
  intro H.
  assert (Hb : exists s1, (match dict_get (heap s body) "user" with
               | Some u => if negb (is_str u) then
                             (u' <- lift (method_get u "id" (PStr (str u))) ;;
                              write body (dict_set (heap s body) "user" u'))
                           else ret tt
               | None => ret tt end) s = (Ok tt, s1) /\ heap s1 = heap (set_body body b s)
               /\ calls s1 = calls s).
  { unfold remap_user, obind in H. unfold set_body; simpl.
    destruct (dict_get (heap s body) "user") as [u|].
    - destruct (negb (is_str u)).
      + destruct (method_get u "id" (PStr (str u))) as [u'|]; [|discriminate].
        injection H as <-. eexists; split; [reflexivity|]. split; reflexivity.
      + injection H as <-. exists s. split; [reflexivity|]. split; [|reflexivity].
        extensionality l. destruct (Nat.eqb l body) eqn:E; [|reflexivity].
        apply Nat.eqb_eq in E; now subst.
    - injection H as <-. exists s. split; [reflexivity|]. split; [|reflexivity].
      extensionality l. destruct (Nat.eqb l body) eqn:E; [|reflexivity].
      apply Nat.eqb_eq in E; now subst. }
  destruct Hb as [s1 [E1 [Eh Ec]]].
  unfold pipe. fold (o1_headers self). fold (o1_url self).
  unfold bind at 1. unfold read at 1.
  unfold bind at 1. rewrite E1.
  unfold bind at 1. unfold read. rewrite Eh.
  assert (Hr : heap (set_body body b s) body = b) by (unfold set_body; simpl; now rewrite Nat.eqb_refl).
  rewrite Hr.
  unfold bind at 1, attempt, requests_post, bind, log_call, lift, after_post, post_call.
  simpl. rewrite Ec, Eh. simpl.
  destruct (post _ _ _ _) as [response|e]; simpl.
  - unfold try_except_request, try_except.
    destruct (raise_for_status response) as [[]|e]; simpl.
    + destruct (truthy _); simpl; [reflexivity|].
      destruct (response_json response) as [j|e]; simpl; [reflexivity|].
      destruct (is_request_exception e); [|reflexivity].
      unfold on_request_error. destruct (response_json response) as [j|e']; simpl; [reflexivity|].
      destruct (is_value_error e'); reflexivity.
    + destruct (is_request_exception e); [|reflexivity].
      unfold on_request_error. destruct (response_json response) as [j|e']; simpl; [reflexivity|].
      destruct (is_value_error e'); reflexivity.
  - destruct (is_request_exception e); reflexivity.
Qed.

End Run.
End RunO1Mini.

Module Facts.
Import Py Eff DeepSeekR1 Obs.
Local Open Scope list_scope.

Lemma string_app_nil_r (x : string) : (x ++ "")%string = x.
Proof. induction x as [|c x IH]; simpl; [reflexivity|now rewrite IH]. Qed.

Lemma string_app_assoc (x y z : string) : (x ++ (y ++ z))%string = ((x ++ y) ++ z)%string.
Proof. induction x as [|c x IH]; simpl; [reflexivity|now rewrite IH]. Qed.

Lemma concat_empty_cons (x : string) (l : list string) :
  String.concat "" (x :: l) = (x ++ String.concat "" l)%string.
Proof. destruct l; simpl; [now rewrite string_app_nil_r|reflexivity]. Qed.

Lemma collect_spec (updates : list Update) : forall acc,
  collect updates acc = (acc ++ String.concat "" (delta_fragments updates))%string.
Proof.
  induction updates as [|u r IH]; intro acc; simpl.
  - now rewrite string_app_nil_r.
  - destruct (choices u) as [|c cs]; simpl; [apply IH|].
    destruct (delta_content c) as [d|]; simpl; [|apply IH].
    destruct (String.eqb d "") eqn:E; simpl.
    + rewrite IH. apply String.eqb_eq in E. now subst.
    + rewrite IH, <- string_app_assoc. f_equal.
      destruct (delta_fragments r); simpl; [apply string_app_nil_r|reflexivity].
Qed.

Lemma filter_keys_get_in (allowed : list string) (d : dict) (k : string) :
  existsb (String.eqb k) allowed = true ->
  dict_get (filter_keys allowed d) k = dict_get d k.
Proof.
  intro Hk. induction d as [|[k' v] r IH]; simpl; [reflexivity|].
  destruct (String.eqb k k') eqn:E.
  - apply String.eqb_eq in E; subst. rewrite Hk. simpl. now rewrite String.eqb_refl.
  - destruct (existsb (String.eqb k') allowed); simpl; [rewrite E|]; exact IH.
Qed.

Lemma filter_keys_get_out (allowed : list string) (d : dict) (k : string) :
  existsb (String.eqb k) allowed = false ->
  dict_get (filter_keys allowed d) k = None.
Proof.
  intro Hk. induction d as [|[k' v] r IH]; simpl; [reflexivity|].
  destruct (existsb (String.eqb k') allowed) eqn:E'; simpl; [|exact IH].
  destruct (String.eqb k k') eqn:E; [|exact IH].
  apply String.eqb_eq in E; subst. congruence.
Qed.

Lemma dict_set_get_same (d : dict) (k : string) (v : pyval) :
  dict_get (dict_set d k v) k = Some v.
Proof.
  induction d as [|[k' v'] r IH]; simpl; [now rewrite String.eqb_refl|].
  destruct (String.eqb k k') eqn:E; simpl; rewrite ?E; [reflexivity|exact IH].
Qed.

Lemma dict_set_get_other (d : dict) (k k' : string) (v : pyval) :
  k' <> k -> dict_get (dict_set d k v) k' = dict_get d k'.
Proof.
  intro Hne. induction d as [|[k1 v1] r IH]; simpl.
  - destruct (String.eqb k' k) eqn:E; [apply String.eqb_eq in E; congruence|reflexivity].
  - destruct (String.eqb k k1) eqn:E; simpl.
    + apply String.eqb_eq in E; subst.
      destruct (String.eqb k' k1) eqn:E'; [apply String.eqb_eq in E'; congruence|reflexivity].
    + destruct (String.eqb k' k1); [reflexivity|exact IH].
Qed.

Lemma dict_pop_length (d : dict) (k : string) :
  length (dict_pop d k) = if has_key d k then pred (length d) else length d.
Proof.
  unfold has_key. induction d as [|[k' v] r IH]; simpl; [reflexivity|].
  destruct (String.eqb k k'); [reflexivity|]. simpl. rewrite IH.
  destruct (dict_get r k) eqn:G; [|reflexivity]. destruct r; [discriminate|simpl; lia].
Qed.

Lemma dict_pop_shorter (d : dict) (k : string) :
  has_key d k = true -> length (dict_pop d k) < length d.
Proof.
  intro H. rewrite dict_pop_length, H. unfold has_key in H.
  destruct d; simpl in *; [discriminate|lia].
Qed.

Lemma dict_pop_length_le (d : dict) (k : string) : length (dict_pop d k) <= length d.
Proof. rewrite dict_pop_length. destruct (has_key d k); lia. Qed.

Lemma dict_pop_get_other (d : dict) (k k' : string) :
  k' <> k -> dict_get (dict_pop d k) k' = dict_get d k'.
Proof.
  intro Hne. induction d as [|[k1 v1] r IH]; simpl; [reflexivity|].
  destruct (String.eqb k k1) eqn:E; simpl.
  - apply String.eqb_eq in E; subst.
    destruct (String.eqb k' k1) eqn:E'; [apply String.eqb_eq in E'; congruence|reflexivity].
  - destruct (String.eqb k' k1); [reflexivity|exact IH].
Qed.

Fixpoint psize (v : pyval) : nat :=
  match v with
  | PList l => S (list_sum (map psize l))
  | PDict d => S (list_sum (map (fun kv => psize (snd kv)) d))
  | _ => 1
  end.

Lemma dict_get_smaller (d : dict) (k : string) (v : pyval) :
  dict_get d k = Some v -> psize v < psize (PDict d).
Proof.
  induction d as [|[k' v'] r IH]; simpl; [discriminate|].
  destruct (String.eqb k k'); intro H.
  - injection H as ->. lia.
  - specialize (IH H). simpl in IH. lia.
Qed.

Lemma normalize_wf (messages : list dict) :
  Forall (fun m => wf_msg m = true) messages -> exists ds, normalize messages = Ok ds.
Proof.
  intro Hwf. unfold normalize, pop_system_message.
  rewrite (Normalize.pop_loop_spec _ _ _ Hwf). simpl.
  assert (Hw : Forall (fun m => wf_msg m = true)
                 (filter (fun m => negb (is_system_msg m)) messages)).
  { apply Forall_forall; intros x Hx. apply filter_In in Hx as [Hx _].
    eapply Forall_forall in Hwf; eassumption. }
  destruct (Normalize.map_outcome_wf _ Hw) as [rest [E _]].
  unfold prepare_messages. rewrite E. eexists; reflexivity.
Qed.

End Facts.

Module PipeFacts.
Import Py Eff Obs.
Local Open Scope list_scope.

Lemma o1_success post self um mid messages body s b r j :
  remap_user (heap s body) = Ok b ->
  (forall url h json st, post url h json st = Ok r) ->
  (O1Mini.status_code r < 400)%Z ->
  O1Mini.json_body r = Some j ->
  fst (O1Mini.pipe post self um mid messages body s) =
    Ok (if truthy (dict_get_default b "stream" PNone) then RIter (O1Mini.lines r) else RObj j).
Proof.
  intros Hb Hpost Hst Hj.
  rewrite (RunO1Mini.o1_pipe_run post self um mid messages body s b Hb). simpl.
  unfold O1MiniRun.after_post. rewrite Hpost. simpl.
  unfold O1Mini.raise_for_status.
  assert (E1 : (400 <=? O1Mini.status_code r)%Z = false) by (apply Z.leb_gt; lia).
  assert (E2 : (500 <=? O1Mini.status_code r)%Z = false) by (apply Z.leb_gt; lia).
  rewrite E1, E2. simpl. unfold dict_get_default.
  rewrite !(Facts.filter_keys_get_in O1Mini.allowed_params b "stream") by reflexivity.
  destruct (truthy _); [reflexivity|].
  simpl. unfold O1Mini.response_json. rewrite Hj. reflexivity.
Qed.

Lemma popped_stream (b : dict) :
  dict_get_default (DeepSeekRun.popped b) "stream" (PBool false) =
    dict_get_default b "stream" (PBool false).
Proof.
  unfold DeepSeekRun.popped, dict_get_default.
  rewrite !Facts.dict_pop_get_other by discriminate. reflexivity.
Qed.

Lemma ds_heap cb cs self um mid messages body s l :
  heap (snd (DeepSeekR1.pipe cb cs self um mid messages body s)) l =
    if Nat.eqb l body then DeepSeekRun.popped (heap s body) else heap s l.
Proof.
  rewrite RunDeepSeek.ds_pipe_run. simpl.
  destruct (normalize messages); [destruct (truthy _)|]; reflexivity.
Qed.

Lemma ds_calls cb cs self um mid messages body s ds :
  normalize messages = Ok ds ->
  let b := DeepSeekRun.popped (heap s body) in
  calls (snd (DeepSeekR1.pipe cb cs self um mid messages body s)) =
    calls s ++ [DeepSeekRun.call_of self ds
                  (truthy (dict_get_default b "stream" (PBool false)))
                  (filter_keys DeepSeekR1.allowed_params b)].
Proof.
  intro H. rewrite RunDeepSeek.ds_pipe_run, H. simpl.
  destruct (truthy _); reflexivity.
Qed.

Lemma remap_user_dict (b u : dict) :
  dict_get b "user" = Some (PDict u) ->
  remap_user b = Ok (dict_set b "user" (dict_get_default u "id" (PStr (str (PDict u))))).
Proof. intro H. unfold remap_user. rewrite H. reflexivity. Qed.

Lemma popped_length (b : dict) :
  has_key b "user" || has_key b "chat_id" || has_key b "title" = true ->
  length (DeepSeekRun.popped b) < length b.
Proof.
  unfold DeepSeekRun.popped. intro H.
  pose proof (Facts.dict_pop_length_le b "user") as L1.
  pose proof (Facts.dict_pop_length_le (dict_pop b "user") "chat_id") as L2.
  pose proof (Facts.dict_pop_length_le (dict_pop (dict_pop b "user") "chat_id") "title") as L3.
  rewrite !orb_true_iff in H. destruct H as [[H|H]|H].
  - pose proof (Facts.dict_pop_shorter b "user" H). lia.
  - assert (has_key (dict_pop b "user") "chat_id" = true) as H'
      by (unfold has_key in *; now rewrite Facts.dict_pop_get_other by discriminate).
    pose proof (Facts.dict_pop_shorter _ _ H'). lia.
  - assert (has_key (dict_pop (dict_pop b "user") "chat_id") "title" = true) as H'
      by (unfold has_key in *; now rewrite !Facts.dict_pop_get_other by discriminate).
    pose proof (Facts.dict_pop_shorter _ _ H'). lia.
Qed.

End PipeFacts.

(** * The claims *)
Module Claims.
Import Py Eff Obs Inputs.
Local Open Scope list_scope.

(** C4 (counterexample): with two system entries "A" then "B", the
    normalization keeps only "B", as the hoisted system message; "A" is not
    kept in the output in its role. *)
Lemma C4_earlier_system_not_kept :
  normalize [mk_msg "system" "A"; mk_msg "system" "B"] =
    Ok [SystemMessage (PStr "B")] /\
  ~ In (SystemMessage (PStr "A")) [SystemMessage (PStr "B")].
Proof.
  split; [reflexivity|]. simpl. intros [H|[]]. discriminate.
Qed.

(** C4 (amended): for well-formed messages in which [S] is the last
    system-role entry, the normalized sequence is a system message carrying
    [S]'s content (only when that content is truthy) followed by the
    conversions of the non-system entries, in their original order; no
    earlier system entry survives. *)
Theorem C4_last_system_hoisted_others_dropped (pre post : list dict) (S : dict) :
  Forall (fun m => wf_msg m = true) (pre ++ S :: post) ->
  is_system_msg S = true ->
  Forall (fun m => is_system_msg m = false) post ->
  exists rest,
    Forall2 (fun m a => DeepSeekR1.to_DeepSeekR1_message m = Ok a)
      (filter (fun m => negb (is_system_msg m)) pre ++ post) rest /\
    Forall (fun a => is_system_azmsg a = false) rest /\
    normalize (pre ++ S :: post) =
      Ok ((if truthy (content_of S) then [SystemMessage (content_of S)] else []) ++ rest).
Proof.
  intros Hwf HS Hpost.
  destruct (Normalize.normalize_last_system pre post S Hwf HS Hpost) as [rest [F E]].
  exists rest; repeat split; try assumption.
  eapply Normalize.converted_nonsys; [|exact F].
  apply Forall_app in Hwf as [Hpre Hsp]. inversion Hsp; subst.
  apply Forall_app; split.
  - apply Forall_forall; intros x Hx. apply filter_In in Hx as [Hx Hn].
    split; [eapply Forall_forall in Hpre; eassumption|now destruct (is_system_msg x)].
  - apply Forall_forall; intros x Hx. split.
    + eapply Forall_forall in H2; eassumption.
    + eapply Forall_forall in Hpost; eassumption.
Qed.

(** C5: with exactly two system-role messages [A] then [B] among
    well-formed messages, [pop_system_message] returns [B]'s content as the
    system message and the other messages in order, [A] is not among them,
    and the normalized sequence holds no system message besides the hoisted
    one. *)
Theorem C5_last_system_wins (pre mid post : list dict) (A B : dict) :
  Forall (fun m => wf_msg m = true) (pre ++ A :: mid ++ B :: post) ->
  is_system_msg A = true -> is_system_msg B = true ->
  Forall (fun m => is_system_msg m = false) (pre ++ mid ++ post) ->
  DeepSeekR1.pop_system_message (pre ++ A :: mid ++ B :: post) =
    Ok (content_of B, pre ++ mid ++ post) /\
  ~ In A (pre ++ mid ++ post) /\
  exists rest,
    Forall (fun a => is_system_azmsg a = false) rest /\
    normalize (pre ++ A :: mid ++ B :: post) =
      Ok ((if truthy (content_of B) then [SystemMessage (content_of B)] else []) ++ rest).
Proof.
  intros Hwf HA HB Hns.
  assert (Hpop : DeepSeekR1.pop_system_message (pre ++ A :: mid ++ B :: post) =
                 Ok (content_of B, pre ++ mid ++ post)).
  { unfold DeepSeekR1.pop_system_message. rewrite (Normalize.pop_loop_spec _ _ _ Hwf).
    apply Forall_app in Hns as [Hpre Hmp]. apply Forall_app in Hmp as [Hmid Hpost].
    simpl. rewrite Normalize.last_system_content_app. simpl. rewrite HA.
    rewrite Normalize.last_system_content_app. simpl. rewrite HB.
    rewrite !Normalize.last_system_content_nonsys by assumption.
    rewrite !filter_app. simpl. rewrite HA. simpl. rewrite filter_app. simpl. rewrite HB. simpl.
    rewrite (Normalize.filter_nonsys pre Hpre), (Normalize.filter_nonsys mid Hmid),
      (Normalize.filter_nonsys post Hpost).
    reflexivity. }
  split; [exact Hpop|]. split.
  - intro Hin. eapply Forall_forall in Hns; [|exact Hin]. congruence.
  - assert (Hw : Forall (fun m => wf_msg m = true /\ is_system_msg m = false) (pre ++ mid ++ post)).
    { apply Forall_forall; intros x Hx. split; [|eapply Forall_forall in Hns; eassumption].
      eapply Forall_forall in Hwf; [eassumption|].
      apply in_app_or in Hx as [Hx|Hx]; apply in_or_app; [now left|right; simpl; right].
      apply in_app_or in Hx as [Hx|Hx]; apply in_or_app; [now left|right; simpl; now right]. }
    assert (Hw' : Forall (fun m => wf_msg m = true) (pre ++ mid ++ post))
      by (eapply Forall_impl; [|exact Hw]; simpl; tauto).
    destruct (Normalize.map_outcome_wf _ Hw') as [rest [E F]].
    exists rest. split; [eapply Normalize.converted_nonsys; eassumption|].
    unfold normalize. rewrite Hpop. simpl. unfold DeepSeekR1.prepare_messages. rewrite E.
    reflexivity.
Qed.

(** C8 (counterexample): a single system message with empty content is not
    moved to the front: it is dropped. *)
Lemma C8_empty_system_not_hoisted :
  normalize [mk_msg "user" "hi"; mk_msg "system" ""] = Ok [UserMessage (PStr "hi")].
Proof. reflexivity. Qed.

(** C8 (amended): with exactly one system-role message [S] among
    well-formed messages, the normalized sequence is a system message with
    [S]'s content when that content is truthy (nothing otherwise), followed
    by the conversions of all other messages in their original order. *)
Theorem C8_single_system_hoisted (pre post : list dict) (S : dict) :
  Forall (fun m => wf_msg m = true) (pre ++ S :: post) ->
  is_system_msg S = true ->
  Forall (fun m => is_system_msg m = false) (pre ++ post) ->
  exists rest,
    Forall2 (fun m a => DeepSeekR1.to_DeepSeekR1_message m = Ok a) (pre ++ post) rest /\
    normalize (pre ++ S :: post) =
      Ok ((if truthy (content_of S) then [SystemMessage (content_of S)] else []) ++ rest).
Proof.
  intros Hwf HS Hns. apply Forall_app in Hns as Hpp. destruct Hpp as [Hpre Hpost].
  destruct (Normalize.normalize_last_system pre post S Hwf HS Hpost) as [rest [F E]].
  rewrite (Normalize.filter_nonsys pre Hpre) in F.
  exists rest; split; assumption.
Qed.

(** C6: when the provider streams [updates] to the end, [stream_response]
    returns exactly the concatenation, in arrival order, of the non-empty
    delta contents of the first choice of the updates that have a choice;
    the other updates are skipped. *)
Theorem C6_collect_all_concatenation cs self ms params s updates :
  cs (DeepSeekR1.client self) (DeepSeekR1.MODEL_ID (DeepSeekR1.valves self)) ms params
    = Ok (updates, None) ->
  fst (DeepSeekR1.stream_response cs self ms params s) =
    Ok (String.concat "" (delta_fragments updates)).
Proof.
  intro H. rewrite RunDeepSeek.stream_response_run. simpl.
  unfold DeepSeekRun.stream_result. rewrite H. now rewrite Facts.collect_spec.
Qed.

(** C1 (code_bug): in the o1-mini pipeline, when [requests.post] itself
    raises a [RequestException] (e.g. the connection is refused), the
    [except] clause reads the never-assigned local [response], and the
    resulting [UnboundLocalError] escapes [pipe]. *)
Theorem C1_request_error_escapes_o1mini post self um mid messages body s b e :
  remap_user (heap s body) = Ok b ->
  (forall url h json st, post url h json st = Raise e) ->
  is_request_exception e = true ->
  fst (O1Mini.pipe post self um mid messages body s) = Raise O1Mini.unbound_response.
Proof.
  intros Hb Hpost He.
  rewrite (RunO1Mini.o1_pipe_run post self um mid messages body s b Hb). simpl.
  unfold O1MiniRun.after_post. rewrite Hpost, He. reflexivity.
Qed.




(** C3 (counterexample): with no environment variable set, both pipelines
    keep their placeholder configuration and still call the provider. *)
Lemma C3_placeholder_still_calls_provider :
  calls (snd (O1Mini.pipe (http_answer unauthorized) (O1Mini.init no_env) "hi" "o1-mini"
                [mk_msg "user" "hi"] 0 (with_body []))) =
    [HttpPost "https://xxx.openai.azure.com/openai/deployments/o1-mini/chat/completions?api-version=2024-08-01-preview"
       [("api-key", PStr "your-azure-openai-api-key-here");
        ("Content-Type", PStr "application/json")] [] (PBool false)] /\
  calls (snd (DeepSeekR1.pipe unreachable_blocking (stream_answer [])
                (DeepSeekR1.init no_env) "hi" "DeepSeekR1" [mk_msg "user" "hi"] 0
                (with_body []))) =
    [AzureComplete "your-azure-inference-endpoint-here" "your-azure-inference-key-here"
       "DeepSeekR1" [UserMessage (PStr "hi")] false []].
Proof. split; reflexivity. Qed.

(** C3 (amended): there is no configuration check.  For every environment
    (an unset variable leaves its placeholder), a DeepSeek-R1 call on
    well-formed messages makes exactly one provider call with the configured
    endpoint, key and model, and an o1-mini call whose [user] is handled
    makes exactly one POST with the configured URL and api-key. *)
Theorem C3_no_configuration_check env cb cs um mid messages body s
    env' post um' mid' messages' body' s' b' :
  Forall (fun m => wf_msg m = true) messages ->
  remap_user (heap s' body') = Ok b' ->
  (exists ds stream params,
     calls (snd (DeepSeekR1.pipe cb cs (DeepSeekR1.init env) um mid messages body s)) =
       calls s ++ [AzureComplete
                     (getenv env "AZURE_INFERENCE_ENDPOINT" "your-azure-inference-endpoint-here")
                     (getenv env "AZURE_INFERENCE_CREDENTIAL" "your-azure-inference-key-here")
                     (getenv env "MODEL_ID" "DeepSeekR1") ds stream params]) /\
  (exists json stream,
     calls (snd (O1Mini.pipe post (O1Mini.init env') um' mid' messages' body' s')) =
       calls s' ++ [HttpPost (o1_url (O1Mini.init env'))
                      [("api-key", PStr (getenv env' "AZURE_OPENAI_API_KEY"
                                           "your-azure-openai-api-key-here"));
                       ("Content-Type", PStr "application/json")] json stream]).
Proof.
  intros Hwf Hb. split.
  - destruct (Facts.normalize_wf messages Hwf) as [ds Hds].
    rewrite (PipeFacts.ds_calls cb cs _ um mid messages body s ds Hds).
    do 3 eexists. reflexivity.
  - rewrite (RunO1Mini.o1_pipe_run post _ um' mid' messages' body' s' b' Hb). simpl.
    do 2 eexists. reflexivity.
Qed.

(** C7 (counterexample): the o1-mini pipeline in blocking mode returns the
    parsed JSON body of a response without choices, not the empty string. *)
Lemma C7_o1mini_returns_parsed_body :
  fst (O1Mini.pipe (http_answer no_choices) (O1Mini.init no_env) "hi" "o1-mini"
         [mk_msg "user" "hi"] 0 (with_body [])) =
    Ok (RObj (PDict [("choices", PList [])])) /\
  fst (O1Mini.pipe (http_answer no_choices) (O1Mini.init no_env) "hi" "o1-mini"
         [mk_msg "user" "hi"] 0 (with_body [])) <> Ok (RStr "").
Proof. split; [reflexivity|]. vm_compute. discriminate. Qed.

(** C7 (amended): in blocking mode the DeepSeek-R1 pipeline returns the
    first choice's content as it is (a str, or None when the provider sends a
    null content), or "" when the provider answers no choice; the o1-mini
    pipeline returns the parsed JSON body of a successful response. *)
Theorem C7_blocking_results cb cs self um mid messages body s ds choices
    post self' um' mid' messages' body' s' b' r j :
  normalize messages = Ok ds ->
  truthy (dict_get_default (heap s body) "stream" (PBool false)) = false ->
  (forall cl model ms params, cb cl model ms params = Ok choices) ->
  remap_user (heap s' body') = Ok b' ->
  (forall url h json st, post url h json st = Ok r) ->
  (O1Mini.status_code r < 400)%Z ->
  O1Mini.json_body r = Some j ->
  truthy (dict_get_default b' "stream" PNone) = false ->
  fst (DeepSeekR1.pipe cb cs self um mid messages body s) =
    Ok (match choices with
        | Some c :: _ => RStr c
        | None :: _ => RObj PNone
        | [] => RStr ""
        end) /\
  fst (O1Mini.pipe post self' um' mid' messages' body' s') = Ok (RObj j).
Proof.
  intros Hds Hst Hcb Hb Hpost Hcode Hj Hst'. split.
  - rewrite RunDeepSeek.ds_pipe_run, Hds. simpl.
    rewrite PipeFacts.popped_stream, Hst. simpl.
    unfold DeepSeekRun.completion_result. rewrite Hcb.
    destruct choices as [|[c|] rest]; reflexivity.
  - rewrite (PipeFacts.o1_success post self' um' mid' messages' body' s' b' r j Hb Hpost Hcode Hj).
    now rewrite Hst'.
Qed.


(** C9 (counterexample): the DeepSeek-R1 pipeline removes [user] altogether:
    the parameters sent for a body with [chat_id], [title] and
    [user = {"id": "u1"}] have no [user] entry. *)
Lemma C9_deepseek_sends_no_user :
  calls (snd (DeepSeekR1.pipe unreachable_blocking (stream_answer [])
                (DeepSeekR1.init no_env) "hi" "DeepSeekR1" [mk_msg "user" "hi"] 0
                (with_body [("chat_id", PStr "c1"); ("title", PStr "t");
                            ("user", PDict [("id", PStr "u1")]);
                            ("temperature", PFloat "0.5")]))) =
    [AzureComplete "your-azure-inference-endpoint-here" "your-azure-inference-key-here"
       "DeepSeekR1" [UserMessage (PStr "hi")] false [("temperature", PFloat "0.5")]] /\
  dict_get [("temperature", PFloat "0.5")] "user" = None.
Proof. split; reflexivity. Qed.

(** C9 (amended): when [body.user] is a dict whose [id] is "u1", the
    parameters the o1-mini pipeline posts hold no [chat_id], no [title] and
    [user = "u1"]; the parameters the DeepSeek-R1 pipeline sends hold none of
    [user], [chat_id], [title]. *)
Theorem C9_filtered_parameters post self um mid messages body s u
    cb cs self' um' mid' messages' body' s' ds :
  dict_get (heap s body) "user" = Some (PDict u) ->
  dict_get u "id" = Some (PStr "u1") ->
  normalize messages' = Ok ds ->
  (exists json stream,
     calls (snd (O1Mini.pipe post self um mid messages body s)) =
       calls s ++ [HttpPost (o1_url self) (o1_headers self) json stream] /\
     dict_get json "chat_id" = None /\ dict_get json "title" = None /\
     dict_get json "user" = Some (PStr "u1")) /\
  (exists stream params,
     calls (snd (DeepSeekR1.pipe cb cs self' um' mid' messages' body' s')) =
       calls s' ++ [DeepSeekRun.call_of self' ds stream params] /\
     dict_get params "user" = None /\ dict_get params "chat_id" = None /\
     dict_get params "title" = None).
Proof.
  intros Hu Hid Hds. split.
  - rewrite (RunO1Mini.o1_pipe_run post self um mid messages body s _
               (PipeFacts.remap_user_dict _ _ Hu)). simpl.
    do 2 eexists. split; [reflexivity|].
    rewrite !Facts.filter_keys_get_out by reflexivity.
    split; [reflexivity|]. split; [reflexivity|].
    rewrite Facts.filter_keys_get_in by reflexivity.
    rewrite Facts.dict_set_get_same. unfold dict_get_default. now rewrite Hid.
  - rewrite (PipeFacts.ds_calls cb cs self' um' mid' messages' body' s' ds Hds).
    do 2 eexists. split; [reflexivity|].
    rewrite !Facts.filter_keys_get_out by reflexivity. auto.
Qed.

(** C10 (counterexample): a body holding none of [user], [chat_id], [title]
    is the same mapping after a DeepSeek-R1 call. *)
Lemma C10_body_without_keys_unchanged :
  heap (snd (DeepSeekR1.pipe unreachable_blocking (stream_answer [])
               (DeepSeekR1.init no_env) "hi" "DeepSeekR1" [mk_msg "user" "hi"] 0
               (with_body [("temperature", PFloat "0.5")]))) 0 =
    heap (with_body [("temperature", PFloat "0.5")]) 0.
Proof. reflexivity. Qed.

(** C10 (amended): [pipe] mutates the caller's [body] dict in place and
    touches no other object.  After a DeepSeek-R1 call the caller's dict is
    the original without [user], [chat_id] and [title] (a different mapping
    whenever one of them was present); after an o1-mini call with a
    dict-valued [user], the caller's dict has [user] replaced by that dict's
    [id] (or its [str]), which differs from the original. *)
Theorem C10_body_mutated_in_place cb cs self um mid messages body s
    post self' um' mid' messages' body' s' u :
  dict_get (heap s' body') "user" = Some (PDict u) ->
  heap (snd (DeepSeekR1.pipe cb cs self um mid messages body s)) body =
    DeepSeekRun.popped (heap s body) /\
  (forall l, l <> body ->
     heap (snd (DeepSeekR1.pipe cb cs self um mid messages body s)) l = heap s l) /\
  (has_key (heap s body) "user" || has_key (heap s body) "chat_id"
     || has_key (heap s body) "title" = true ->
   DeepSeekRun.popped (heap s body) <> heap s body) /\
  heap (snd (O1Mini.pipe post self' um' mid' messages' body' s')) body' =
    dict_set (heap s' body') "user" (dict_get_default u "id" (PStr (str (PDict u)))) /\
  (forall l, l <> body' ->
     heap (snd (O1Mini.pipe post self' um' mid' messages' body' s')) l = heap s' l) /\
  heap (snd (O1Mini.pipe post self' um' mid' messages' body' s')) body' <> heap s' body'.
Proof.
  intros Hu.
  pose proof (RunO1Mini.o1_pipe_run post self' um' mid' messages' body' s' _
                (PipeFacts.remap_user_dict _ _ Hu)) as Ho.
  repeat split.
  - rewrite PipeFacts.ds_heap. now rewrite Nat.eqb_refl.
  - intros l Hl. rewrite PipeFacts.ds_heap. apply Nat.eqb_neq in Hl. now rewrite Hl.
  - intros Hk He. pose proof (PipeFacts.popped_length _ Hk) as L. rewrite He in L. lia.
  - rewrite Ho. simpl. now rewrite Nat.eqb_refl.
  - intros l Hl. rewrite Ho. simpl. apply Nat.eqb_neq in Hl. now rewrite Hl.
  - rewrite Ho. unfold O1MiniRun.set_body. cbn [snd heap]. rewrite Nat.eqb_refl. intro He.
    assert (G := Facts.dict_set_get_same (heap s' body') "user"
                   (dict_get_default u "id" (PStr (str (PDict u))))).
    rewrite He, Hu in G. injection G as G.
    unfold dict_get_default in G. destruct (dict_get u "id") as [v|] eqn:Ev; [|discriminate].
    apply Facts.dict_get_smaller in Ev. rewrite <- G in Ev. lia.
Qed.

End Claims.

(** * Witnesses: each theorem above applied at a concrete input *)
Module Witnesses.
Import Py Eff Obs Inputs Claims.
Local Open Scope list_scope.

Lemma C1_witness :
  fst (O1Mini.pipe connection_refused (O1Mini.init no_env) "hi" "o1-mini"
         [mk_msg "user" "hi"] 0 (with_body [("temperature", PFloat "0.5")])) =
    Raise O1Mini.unbound_response.
Proof.
  apply (C1_request_error_escapes_o1mini _ _ _ _ _ _ _ [("temperature", PFloat "0.5")]
           (Exc ReqConnectionError "Connection refused")).
  - reflexivity.
  - intros; reflexivity.
  - reflexivity.
Defined.


Lemma C3_witness :
  (exists ds stream params,
     calls (snd (DeepSeekR1.pipe unreachable_blocking (stream_answer []) (DeepSeekR1.init no_env)
                   "hi" "DeepSeekR1" [mk_msg "user" "hi"] 0 (with_body []))) =
       calls (with_body []) ++
         [AzureComplete
            (getenv no_env "AZURE_INFERENCE_ENDPOINT" "your-azure-inference-endpoint-here")
            (getenv no_env "AZURE_INFERENCE_CREDENTIAL" "your-azure-inference-key-here")
            (getenv no_env "MODEL_ID" "DeepSeekR1") ds stream params]) /\
  (exists json stream,
     calls (snd (O1Mini.pipe (http_answer unauthorized) (O1Mini.init no_env) "hi" "o1-mini"
                   [mk_msg "user" "hi"] 0 (with_body []))) =
       calls (with_body []) ++
         [HttpPost (o1_url (O1Mini.init no_env))
            [("api-key", PStr (getenv no_env "AZURE_OPENAI_API_KEY" "your-azure-openai-api-key-here"));
             ("Content-Type", PStr "application/json")] json stream]).
Proof.
  apply C3_no_configuration_check with (b' := []).
  - repeat constructor.
  - reflexivity.
Defined.

Lemma C4_witness :
  exists rest,
    Forall2 (fun m a => DeepSeekR1.to_DeepSeekR1_message m = Ok a)
      (filter (fun m => negb (is_system_msg m)) [mk_msg "system" "A"; mk_msg "user" "u"]
       ++ [mk_msg "assistant" "a"]) rest /\
    Forall (fun a => is_system_azmsg a = false) rest /\
    normalize ([mk_msg "system" "A"; mk_msg "user" "u"] ++ mk_msg "system" "B" :: [mk_msg "assistant" "a"]) =
      Ok ((if truthy (content_of (mk_msg "system" "B"))
           then [SystemMessage (content_of (mk_msg "system" "B"))] else []) ++ rest).
Proof.
  apply C4_last_system_hoisted_others_dropped.
  - repeat constructor.
  - reflexivity.
  - repeat constructor.
Defined.

Lemma C5_witness :
  DeepSeekR1.pop_system_message ([mk_msg "user" "u"] ++ mk_msg "system" "A" :: [] ++ mk_msg "system" "B" :: []) =
    Ok (content_of (mk_msg "system" "B"), [mk_msg "user" "u"] ++ [] ++ []) /\
  ~ In (mk_msg "system" "A") ([mk_msg "user" "u"] ++ [] ++ []) /\
  exists rest,
    Forall (fun a => is_system_azmsg a = false) rest /\
    normalize ([mk_msg "user" "u"] ++ mk_msg "system" "A" :: [] ++ mk_msg "system" "B" :: []) =
      Ok ((if truthy (content_of (mk_msg "system" "B"))
           then [SystemMessage (content_of (mk_msg "system" "B"))] else []) ++ rest).
Proof.
  apply C5_last_system_wins.
  - repeat constructor.
  - reflexivity.
  - reflexivity.
  - repeat constructor.
Defined.

Lemma C6_witness :
  fst (DeepSeekR1.stream_response (stream_answer scenario_b) (DeepSeekR1.init no_env)
         [UserMessage (PStr "hi")] [] (with_body [])) =
    Ok (String.concat "" (delta_fragments scenario_b)).
Proof.
  apply C6_collect_all_concatenation. reflexivity.
Defined.

Lemma C7_witness :
  fst (DeepSeekR1.pipe (blocking_answer [None; Some "About 7000."]) (stream_answer [])
         (DeepSeekR1.init no_env) "hi" "DeepSeekR1" [mk_msg "user" "hi"] 0 (with_body [])) =
    Ok (match [None; Some "About 7000."] with
        | Some c :: _ => RStr c
        | None :: _ => RObj PNone
        | [] => RStr ""
        end) /\
  fst (O1Mini.pipe (http_answer no_choices) (O1Mini.init no_env) "hi" "o1-mini"
         [mk_msg "user" "hi"] 0 (with_body [])) = Ok (RObj (PDict [("choices", PList [])])).
Proof.
  apply C7_blocking_results with (ds := [UserMessage (PStr "hi")]) (b' := []) (r := no_choices).
  - reflexivity.
  - reflexivity.
  - intros; reflexivity.
  - reflexivity.
  - intros; reflexivity.
  - vm_compute; reflexivity.
  - reflexivity.
  - reflexivity.
Defined.

Lemma C8_witness :
  exists rest,
    Forall2 (fun m a => DeepSeekR1.to_DeepSeekR1_message m = Ok a)
      ([mk_msg "user" "u"] ++ [mk_msg "assistant" "a"]) rest /\
    normalize ([mk_msg "user" "u"] ++ mk_msg "system" "S" :: [mk_msg "assistant" "a"]) =
      Ok ((if truthy (content_of (mk_msg "system" "S"))
           then [SystemMessage (content_of (mk_msg "system" "S"))] else []) ++ rest).
Proof.
  apply C8_single_system_hoisted.
  - repeat constructor.
  - reflexivity.
  - repeat constructor.
Defined.

Lemma C9_witness :
  let b := [("chat_id", PStr "c1"); ("title", PStr "t"); ("user", PDict [("id", PStr "u1")])] in
  (exists json stream,
     calls (snd (O1Mini.pipe (http_answer no_choices) (O1Mini.init no_env) "hi" "o1-mini"
                   [mk_msg "user" "hi"] 0
                   (with_body b))) =
       calls (with_body b) ++
         [HttpPost (o1_url (O1Mini.init no_env)) (o1_headers (O1Mini.init no_env)) json stream] /\
     dict_get json "chat_id" = None /\ dict_get json "title" = None /\
     dict_get json "user" = Some (PStr "u1")) /\
  (exists stream params,
     calls (snd (DeepSeekR1.pipe unreachable_blocking (stream_answer []) (DeepSeekR1.init no_env)
                   "hi" "DeepSeekR1" [mk_msg "user" "hi"] 0
                   (with_body b))) =
       calls (with_body b) ++
         [DeepSeekRun.call_of (DeepSeekR1.init no_env) [UserMessage (PStr "hi")] stream params] /\
     dict_get params "user" = None /\ dict_get params "chat_id" = None /\
     dict_get params "title" = None).
Proof.
  intro b. apply C9_filtered_parameters with (u := [("id", PStr "u1")]).
  - reflexivity.
  - reflexivity.
  - reflexivity.
Defined.

Lemma C10_witness :
  let b := [("chat_id", PStr "c1"); ("user", PDict [("id", PStr "u1")])] in
  heap (snd (DeepSeekR1.pipe unreachable_blocking (stream_answer []) (DeepSeekR1.init no_env)
               "hi" "DeepSeekR1" [mk_msg "user" "hi"] 0 (with_body b))) 0 =
    DeepSeekRun.popped (heap (with_body b) 0) /\
  (forall l, l <> 0 ->
     heap (snd (DeepSeekR1.pipe unreachable_blocking (stream_answer []) (DeepSeekR1.init no_env)
                  "hi" "DeepSeekR1" [mk_msg "user" "hi"] 0 (with_body b))) l =
       heap (with_body b) l) /\
  (has_key (heap (with_body b) 0) "user" || has_key (heap (with_body b) 0) "chat_id"
     || has_key (heap (with_body b) 0) "title" = true ->
   DeepSeekRun.popped (heap (with_body b) 0) <> heap (with_body b) 0) /\
  heap (snd (O1Mini.pipe (http_answer no_choices) (O1Mini.init no_env) "hi" "o1-mini"
               [mk_msg "user" "hi"] 0 (with_body b))) 0 =
    dict_set (heap (with_body b) 0) "user"
      (dict_get_default [("id", PStr "u1")] "id" (PStr (str (PDict [("id", PStr "u1")])))) /\
  (forall l, l <> 0 ->
     heap (snd (O1Mini.pipe (http_answer no_choices) (O1Mini.init no_env) "hi" "o1-mini"
                  [mk_msg "user" "hi"] 0 (with_body b))) l = heap (with_body b) l) /\
  heap (snd (O1Mini.pipe (http_answer no_choices) (O1Mini.init no_env) "hi" "o1-mini"
               [mk_msg "user" "hi"] 0 (with_body b))) 0 <> heap (with_body b) 0.
Proof.
  intro b. apply C10_body_mutated_in_place. reflexivity.
Defined.

End Witnesses.

(** * Further properties of the two pipelines *)
Module Extras.
Import Py Eff Obs.
Local Open Scope list_scope.

Lemma loop_ok (l : list dict) : forall sm acc sm' out,
  DeepSeekR1.pop_system_message_loop l sm acc = Ok (sm', out) ->
  out = acc ++ filter (fun m => negb (is_system_msg m)) l /\
  Forall (fun m => has_key m "role" = true /\
                   (is_system_msg m = true -> has_key m "content" = true)) l.
Proof.
  induction l as [|m r IH]; simpl; intros sm acc sm' out H.
  - injection H as _ <-. split; [now rewrite app_nil_r|constructor].
  - unfold getitem in H. destruct (dict_get m "role") as [role|] eqn:R; [|discriminate].
    simpl in H. unfold is_system_msg at 1 2. rewrite R.
    destruct (eq_str role "system") eqn:S.
    + destruct (dict_get m "content") as [c|] eqn:C; simpl in H; [|discriminate].
      apply IH in H as [-> F]. split; [reflexivity|].
      constructor; [|exact F]. unfold has_key. rewrite R, C. split; reflexivity.
    + apply IH in H as [-> F]. split; [simpl; now rewrite <- app_assoc|].
      constructor; [|exact F]. unfold has_key. rewrite R. split; [reflexivity|].
      intro Hs. unfold is_system_msg in Hs. rewrite R, S in Hs. discriminate.
Qed.

Lemma loop_raise (l : list dict) : forall sm acc e,
  DeepSeekR1.pop_system_message_loop l sm acc = Raise e ->
  e = key_error "role" \/ e = key_error "content".
Proof.
  induction l as [|m r IH]; simpl; intros sm acc e H; [discriminate|].
  unfold getitem in H. destruct (dict_get m "role") as [role|]; simpl in H.
  - destruct (eq_str role "system").
    + destruct (dict_get m "content"); simpl in H; [eapply IH; exact H|].
      injection H as <-. now right.
    + eapply IH; exact H.
  - injection H as <-. now left.
Qed.

Lemma to_message_ok (m : dict) (a : azmsg) :
  DeepSeekR1.to_DeepSeekR1_message m = Ok a -> wf_msg m = true.
Proof.
  unfold DeepSeekR1.to_DeepSeekR1_message, getitem, wf_msg, has_key.
  destruct (dict_get m "role") as [r|]; simpl; [|discriminate].
  destruct (dict_get m "content"); [reflexivity|].
  destruct (eq_str r "user"); simpl; [discriminate|].
  destruct (eq_str r "system"); discriminate.
Qed.

Lemma to_message_raise (m : dict) (e : exc) :
  DeepSeekR1.to_DeepSeekR1_message m = Raise e ->
  e = key_error "role" \/ e = key_error "content".
Proof.
  unfold DeepSeekR1.to_DeepSeekR1_message, getitem.
  destruct (dict_get m "role") as [r|]; simpl; [|intro H; injection H as <-; now left].
  destruct (dict_get m "content"); simpl.
  - destruct (eq_str r "user"); [discriminate|]. destruct (eq_str r "system"); discriminate.
  - destruct (eq_str r "user"); [intro H; injection H as <-; now right|].
    destruct (eq_str r "system"); intro H; injection H as <-; now right.
Qed.

Lemma map_outcome_ok (l : list dict) : forall rest,
  DeepSeekR1.map_outcome DeepSeekR1.to_DeepSeekR1_message l = Ok rest ->
  Forall (fun m => wf_msg m = true) l.
Proof.
  induction l as [|m r IH]; simpl; intros rest H; [constructor|].
  destruct (DeepSeekR1.to_DeepSeekR1_message m) as [a|] eqn:E; simpl in H; [|discriminate].
  destruct (DeepSeekR1.map_outcome _ r) as [rs|] eqn:E'; simpl in H; [|discriminate].
  constructor; [eapply to_message_ok; exact E|eapply IH; reflexivity].
Qed.

Lemma map_outcome_raise (l : list dict) : forall e,
  DeepSeekR1.map_outcome DeepSeekR1.to_DeepSeekR1_message l = Raise e ->
  e = key_error "role" \/ e = key_error "content".
Proof.
  induction l as [|m r IH]; simpl; intros e H; [discriminate|].
  destruct (DeepSeekR1.to_DeepSeekR1_message m) as [a|] eqn:E; simpl in H.
  - destruct (DeepSeekR1.map_outcome _ r) eqn:E'; simpl in H; [discriminate|].
    injection H as <-. eapply IH; reflexivity.
  - injection H as <-. eapply to_message_raise; exact E.
Qed.

Lemma normalize_malformed (messages : list dict) :
  Exists (fun m => wf_msg m = false) messages ->
  exists k, (k = "role" \/ k = "content") /\ normalize messages = Raise (key_error k).
Proof.
  intro Hex. unfold normalize, DeepSeekR1.pop_system_message.
  destruct (DeepSeekR1.pop_system_message_loop messages (PStr "") []) as [[sm out]|e] eqn:P;
    simpl.
  - unfold DeepSeekR1.prepare_messages.
    destruct (DeepSeekR1.map_outcome _ out) as [rest|e] eqn:M; simpl.
    + exfalso. apply loop_ok in P as [Eo F]. subst out. simpl in M.
      apply map_outcome_ok in M.
      apply Exists_exists in Hex as [m [Hin Hm]].
      destruct (is_system_msg m) eqn:Hs.
      * eapply Forall_forall in F; [|exact Hin]. destruct F as [Hr Hc].
        unfold wf_msg in Hm. rewrite Hr, (Hc Hs) in Hm. discriminate.
      * eapply Forall_forall in M; [|apply filter_In; split; [exact Hin|now rewrite Hs]].
        congruence.
    + apply map_outcome_raise in M as [->| ->];
        [exists "role"; split; [left|]|exists "content"; split; [right|]]; reflexivity.
  - apply loop_raise in P as [->| ->];
      [exists "role"; split; [left|]|exists "content"; split; [right|]]; reflexivity.
Qed.

(** Malformed messages (DeepSeek-R1): when some message lacks its "role" or
    its "content", [pipe] makes no provider call and returns the JSON error
    envelope of a [KeyError] naming "role" or "content". *)
Theorem X_malformed_message_no_call cb cs self um mid messages body s :
  Exists (fun m => wf_msg m = false) messages ->
  exists k, (k = "role" \/ k = "content") /\
    fst (DeepSeekR1.pipe cb cs self um mid messages body s) =
      Ok (RStr (error_envelope (repr_str k))) /\
    calls (snd (DeepSeekR1.pipe cb cs self um mid messages body s)) = calls s.
Proof.
  intro Hex. destruct (normalize_malformed messages Hex) as [k [Hk E]].
  exists k. split; [exact Hk|].
  rewrite RunDeepSeek.ds_pipe_run, E. split; reflexivity.
Qed.

(** Messages without a system entry (DeepSeek-R1): [pop_system_message]
    returns "" and the messages unchanged, no system message is sent, and
    every message becomes a [UserMessage] when its role is "user" and an
    [AssistantMessage] otherwise (whatever the role), content and order
    kept. *)
Theorem X_no_system_plain_messages (messages : list dict) :
  Forall (fun m => wf_msg m = true /\ is_system_msg m = false) messages ->
  DeepSeekR1.pop_system_message messages = Ok (PStr "", messages) /\
  normalize messages = Ok (map plain_message messages).
Proof.
  intro H.
  assert (Hw : Forall (fun m => wf_msg m = true) messages)
    by (eapply Forall_impl; [|exact H]; simpl; tauto).
  assert (Hs : Forall (fun m => is_system_msg m = false) messages)
    by (eapply Forall_impl; [|exact H]; simpl; tauto).
  assert (Hpop : DeepSeekR1.pop_system_message messages = Ok (PStr "", messages)).
  { unfold DeepSeekR1.pop_system_message. rewrite (Normalize.pop_loop_spec _ _ _ Hw).
    rewrite Normalize.last_system_content_nonsys by exact Hs.
    now rewrite Normalize.filter_nonsys by exact Hs. }
  split; [exact Hpop|].
  unfold normalize. rewrite Hpop. simpl. unfold DeepSeekR1.prepare_messages.
  assert (M : DeepSeekR1.map_outcome DeepSeekR1.to_DeepSeekR1_message messages =
              Ok (map plain_message messages)).
  { clear Hpop Hw Hs. induction messages as [|m r IH]; simpl; [reflexivity|].
    inversion H as [|? ? [Hm Hsm] Hr]; subst.
    rewrite (Normalize.to_message_wf m Hm), Hsm, IH by exact Hr. reflexivity. }
  rewrite M. reflexivity.
Qed.

(** Reconfiguration (DeepSeek-R1): when the host replaces the valves, a
    call made before [on_valves_updated] still goes to the old client's
    endpoint and key (with the new MODEL_ID), and a call made after it goes
    to the new endpoint and key. *)
Theorem X_valves_take_effect_after_update cb cs p v um mid messages body s ds :
  normalize messages = Ok ds ->
  (exists st params,
     calls (snd (DeepSeekR1.pipe cb cs {| DeepSeekR1.valves := v; DeepSeekR1.client := DeepSeekR1.client p |}
                   um mid messages body s)) =
       calls s ++ [AzureComplete (DeepSeekR1.cl_endpoint (DeepSeekR1.client p))
                     (DeepSeekR1.cl_credential (DeepSeekR1.client p))
                     (DeepSeekR1.MODEL_ID v) ds st params]) /\
  (exists st params,
     calls (snd (DeepSeekR1.pipe cb cs
                   (DeepSeekR1.on_valves_updated
                      {| DeepSeekR1.valves := v; DeepSeekR1.client := DeepSeekR1.client p |})
                   um mid messages body s)) =
       calls s ++ [AzureComplete (DeepSeekR1.AZURE_INFERENCE_ENDPOINT v)
                     (DeepSeekR1.AZURE_INFERENCE_CREDENTIAL v)
                     (DeepSeekR1.MODEL_ID v) ds st params]).
Proof.
  intro Hds. split.
  - rewrite (PipeFacts.ds_calls _ _ _ _ _ _ _ _ _ Hds). do 2 eexists. reflexivity.
  - rewrite (PipeFacts.ds_calls _ _ _ _ _ _ _ _ _ Hds). do 2 eexists. reflexivity.
Qed.

Lemma popped_get_allowed (b : dict) (k : string) :
  existsb (String.eqb k) DeepSeekR1.allowed_params = true \/ k = "stream" ->
  dict_get (DeepSeekRun.popped b) k = dict_get b k.
Proof.
  intro Hk.
  assert (Hu : k <> "user" /\ k <> "chat_id" /\ k <> "title").
  { destruct Hk as [Hk| ->]; [|repeat split; discriminate].
    apply existsb_exists in Hk as [x [Hx E]]. apply String.eqb_eq in E. subst x.
    simpl in Hx. repeat destruct Hx as [<-|Hx]; try (repeat split; discriminate).
    destruct Hx. }
  destruct Hu as [H1 [H2 H3]]. unfold DeepSeekRun.popped.
  rewrite !Facts.dict_pop_get_other by assumption. reflexivity.
Qed.

(** Parameters forwarded (DeepSeek-R1): the provider call receives, for
    each of the five allowed keys, exactly the caller's body value (absent
    keys stay absent) and nothing under any other key; it streams exactly
    when the body's "stream" (default False) is truthy. *)
Theorem X_deepseek_forwarded_parameters cb cs self um mid messages body s ds :
  normalize messages = Ok ds ->
  exists params,
    calls (snd (DeepSeekR1.pipe cb cs self um mid messages body s)) =
      calls s ++ [DeepSeekRun.call_of self ds
                    (truthy (dict_get_default (heap s body) "stream" (PBool false))) params] /\
    forall k, dict_get params k =
      if existsb (String.eqb k) DeepSeekR1.allowed_params then dict_get (heap s body) k else None.
Proof.
  intro Hds. rewrite (PipeFacts.ds_calls _ _ _ _ _ _ _ _ _ Hds).
  eexists. split.
  - unfold dict_get_default. rewrite (popped_get_allowed _ "stream") by (right; reflexivity).
    reflexivity.
  - intro k. destruct (existsb (String.eqb k) DeepSeekR1.allowed_params) eqn:Hk.
    + rewrite Facts.filter_keys_get_in by exact Hk. apply popped_get_allowed. now left.
    + apply Facts.filter_keys_get_out. exact Hk.
Qed.

(** Streaming failures (DeepSeek-R1): in streaming mode, when the provider
    call raises or the stream breaks part-way, [pipe] returns the JSON error
    envelope of the exception; the text received before the break is not
    returned. *)
Theorem X_stream_failure_envelope cb cs self um mid messages body s ds e :
  normalize messages = Ok ds ->
  truthy (dict_get_default (DeepSeekRun.popped (heap s body)) "stream" (PBool false)) = true ->
  let params := filter_keys DeepSeekR1.allowed_params (DeepSeekRun.popped (heap s body)) in
  (exists updates, cs (DeepSeekR1.client self) (DeepSeekR1.MODEL_ID (DeepSeekR1.valves self)) ds params
                   = Ok (updates, Some e)) \/
  cs (DeepSeekR1.client self) (DeepSeekR1.MODEL_ID (DeepSeekR1.valves self)) ds params = Raise e ->
  fst (DeepSeekR1.pipe cb cs self um mid messages body s) = Ok (RStr (error_envelope (exc_str e))).
Proof.
  intros Hds Hst params Hcs.
  rewrite RunDeepSeek.ds_pipe_run, Hds. simpl. rewrite Hst. simpl.
  unfold DeepSeekRun.stream_result. fold params.
  destruct Hcs as [[u ->]| ->]; reflexivity.
Qed.

(** Blocking failures (DeepSeek-R1): in non-streaming mode, a provider
    exception gives the JSON error envelope of the exception, and a response
    without choices gives the empty string. *)
Theorem X_blocking_failure_results cb cs self um mid messages body s ds :
  normalize messages = Ok ds ->
  truthy (dict_get_default (DeepSeekRun.popped (heap s body)) "stream" (PBool false)) = false ->
  let params := filter_keys DeepSeekR1.allowed_params (DeepSeekRun.popped (heap s body)) in
  (forall e, cb (DeepSeekR1.client self) (DeepSeekR1.MODEL_ID (DeepSeekR1.valves self)) ds params
             = Raise e ->
     fst (DeepSeekR1.pipe cb cs self um mid messages body s) = Ok (RStr (error_envelope (exc_str e)))) /\
  (cb (DeepSeekR1.client self) (DeepSeekR1.MODEL_ID (DeepSeekR1.valves self)) ds params = Ok [] ->
     fst (DeepSeekR1.pipe cb cs self um mid messages body s) = Ok (RStr "")).
Proof.
  intros Hds Hst params.
  rewrite RunDeepSeek.ds_pipe_run, Hds. simpl. rewrite Hst. simpl.
  unfold DeepSeekRun.completion_result. fold params.
  split; [intros e He; rewrite He|intro He; rewrite He]; reflexivity.
Qed.

(** HTTP error statuses (o1-mini): when the service answers with a status
    from 400 to 599, [pipe] returns the text "Error: Request failed: <status>
    Client|Server Error: <reason> for url: <response.url>" followed by
    " | Details: " and the str of the JSON body, or, when the body is not
    JSON, by " | Response Text: " and the raw text; only when reading the
    body as JSON fails with an error that is not a [ValueError] (a
    streamed body that breaks) does that error escape. *)
Theorem X_o1_http_error_text post self um mid messages body s b r :
  remap_user (heap s body) = Ok b ->
  let fb := filter_keys O1Mini.allowed_params b in
  post (o1_url self) (o1_headers self) fb (dict_get_default fb "stream" (PBool false)) = Ok r ->
  (400 <= O1Mini.status_code r < 600)%Z ->
  fst (O1Mini.pipe post self um mid messages body s) =
    match O1Mini.json_body r with
    | Some d => Ok (RStr ("Error: " ++ ("Request failed: " ++ http_error_text r) ++
                          " | Details: " ++ str d))
    | None =>
        if is_value_error (O1Mini.json_error r)
        then Ok (RStr ("Error: " ++ ("Request failed: " ++ http_error_text r) ++
                       " | Response Text: " ++ O1Mini.text r))
        else Raise (O1Mini.json_error r)
    end.
Proof.
  intros Hb fb Hpost Hcode.
  rewrite (RunO1Mini.o1_pipe_run post self um mid messages body s b Hb). simpl.
  unfold O1MiniRun.after_post. fold fb. rewrite Hpost.
  unfold O1Mini.raise_for_status, http_error_text.
  assert (E1 : (400 <=? O1Mini.status_code r)%Z = true) by (apply Z.leb_le; lia).
  rewrite E1. simpl.
  destruct (O1Mini.status_code r <? 500)%Z eqn:E2.
  - simpl. unfold O1Mini.on_request_error, O1Mini.response_json, ret, throw. simpl.
    destruct (O1Mini.json_body r); [reflexivity|].
    destruct (is_value_error (O1Mini.json_error r)); reflexivity.
  - assert (E3 : (500 <=? O1Mini.status_code r)%Z = true) by (apply Z.leb_le; apply Z.ltb_ge in E2; lia).
    assert (E4 : (O1Mini.status_code r <? 600)%Z = true) by (apply Z.ltb_lt; lia).
    rewrite E3, E4. simpl.
    unfold O1Mini.on_request_error, O1Mini.response_json, ret, throw. simpl.
    destruct (O1Mini.json_body r); [reflexivity|].
    destruct (is_value_error (O1Mini.json_error r)); reflexivity.
Qed.

(** Non-JSON success (o1-mini): when the service answers a status outside
    400-599 with a body that is not JSON and streaming was not asked, the
    error raised by [response.json()] is handled like a request failure
    when it is a [ValueError]: [pipe] returns "Error: Request failed: "
    followed by the decoder's message, " | Response Text: " and the raw
    text; any other error escapes. *)
Theorem X_o1_non_json_success post self um mid messages body s b r :
  remap_user (heap s body) = Ok b ->
  let fb := filter_keys O1Mini.allowed_params b in
  post (o1_url self) (o1_headers self) fb (dict_get_default fb "stream" (PBool false)) = Ok r ->
  (O1Mini.status_code r < 400 \/ 600 <= O1Mini.status_code r)%Z ->
  O1Mini.json_body r = None ->
  truthy (dict_get_default b "stream" PNone) = false ->
  fst (O1Mini.pipe post self um mid messages body s) =
    if is_value_error (O1Mini.json_error r)
    then Ok (RStr ("Error: " ++ ("Request failed: " ++ exc_str (O1Mini.json_error r)) ++
                   " | Response Text: " ++ O1Mini.text r))
    else Raise (O1Mini.json_error r).
Proof.
  intros Hb fb Hpost Hcode Hj Hst.
  rewrite (RunO1Mini.o1_pipe_run post self um mid messages body s b Hb). simpl.
  unfold O1MiniRun.after_post. fold fb. rewrite Hpost.
  unfold O1Mini.raise_for_status.
  assert (E : ((400 <=? O1Mini.status_code r) && (O1Mini.status_code r <? 500))%Z = false /\
              ((500 <=? O1Mini.status_code r) && (O1Mini.status_code r <? 600))%Z = false).
  { destruct Hcode as [H|H].
    - split; apply andb_false_iff; left; apply Z.leb_gt; lia.
    - split; apply andb_false_iff; right; apply Z.ltb_ge; lia. }
  destruct E as [-> ->]. simpl.
  assert (Hs : dict_get_default fb "stream" PNone = dict_get_default b "stream" PNone)
    by (unfold dict_get_default, fb; now rewrite Facts.filter_keys_get_in by reflexivity).
  rewrite Hs, Hst. simpl.
  unfold O1Mini.response_json. rewrite Hj. simpl.
  destruct (is_request_exception (O1Mini.json_error r)) eqn:Hr.
  - unfold O1Mini.on_request_error, O1Mini.response_json. rewrite Hj.
    destruct (is_value_error (O1Mini.json_error r)); reflexivity.
  - destruct (is_value_error (O1Mini.json_error r)) eqn:Hv; [|reflexivity].
    exfalso. unfold is_value_error, is_request_exception in *.
    destruct (exc_cls (O1Mini.json_error r)); discriminate.
Qed.

(** User field with no id (o1-mini): when the body's "user" is a dict, the
    caller's body is updated in place so that "user" becomes the dict's "id"
    or, when it has none, the str of the whole dict, and that value is the
    one posted under "user". *)
Theorem X_o1_user_dict_replaced post self um mid messages body s u :
  dict_get (heap s body) "user" = Some (PDict u) ->
  let v := dict_get_default u "id" (PStr (repr (PDict u))) in
  heap (snd (O1Mini.pipe post self um mid messages body s)) body =
    dict_set (heap s body) "user" v /\
  exists json st,
    calls (snd (O1Mini.pipe post self um mid messages body s)) =
      calls s ++ [HttpPost (o1_url self) (o1_headers self) json st] /\
    dict_get json "user" = Some v.
Proof.
  intros Hu v.
  pose proof (PipeFacts.remap_user_dict _ _ Hu) as Hr.
  rewrite (RunO1Mini.o1_pipe_run post self um mid messages body s _ Hr). simpl.
  unfold O1MiniRun.set_body. simpl. rewrite Nat.eqb_refl. split; [reflexivity|].
  do 2 eexists. split; [reflexivity|].
  rewrite Facts.filter_keys_get_in by reflexivity. apply Facts.dict_set_get_same.
Qed.

(** Other user values (o1-mini): when the body's "user" is neither a str
    nor a dict (None, a number, a bool, a list), [pipe] raises
    [AttributeError] "'<type>' object has no attribute 'get'" before any
    request, and the caller's state is left as it was. *)
Theorem X_o1_user_attribute_error post self um mid messages body s u :
  dict_get (heap s body) "user" = Some u ->
  is_str u = false ->
  (forall d, u <> PDict d) ->
  O1Mini.pipe post self um mid messages body s =
    (Raise (Exc AttributeError
              (sq ++ O1Mini.py_type_name u ++ sq ++ " object has no attribute " ++ sq ++ "get" ++ sq)),
     s).
Proof.
  intros Hu Hs Hd. apply RunO1Mini.pipe_user_raise.
  unfold remap_user. rewrite Hu, Hs. simpl.
  destruct u; try reflexivity. exfalso. eapply Hd. reflexivity.
Qed.

(** Request sent (o1-mini): once "user" is remapped, exactly one POST is
    made, to the URL built from the valves, with the "api-key" and
    "Content-Type" headers; its JSON holds, for each of the allowed keys,
    the body's value and nothing under any other key, and its stream
    argument is the body's "stream" (default False). *)
Theorem X_o1_request_sent post self um mid messages body s b :
  remap_user (heap s body) = Ok b ->
  exists json,
    calls (snd (O1Mini.pipe post self um mid messages body s)) =
      calls s ++ [HttpPost (o1_url self) (o1_headers self) json
                    (dict_get_default b "stream" (PBool false))] /\
    forall k, dict_get json k =
      if existsb (String.eqb k) O1Mini.allowed_params then dict_get b k else None.
Proof.
  intro Hb. rewrite (RunO1Mini.o1_pipe_run post self um mid messages body s b Hb).
  cbn [snd calls]. eexists. split.
  - unfold O1MiniRun.post_call, dict_get_default.
    rewrite Facts.filter_keys_get_in by reflexivity. reflexivity.
  - intro k. destruct (existsb (String.eqb k) O1Mini.allowed_params) eqn:Hk.
    + apply Facts.filter_keys_get_in. exact Hk.
    + apply Facts.filter_keys_get_out. exact Hk.
Qed.

(** Body left alone (o1-mini): when the body has no "user" entry or its
    "user" is a str, [pipe] does not modify the caller's body (nor any
    other dict). *)
Theorem X_o1_body_untouched post self um mid messages body s :
  (dict_get (heap s body) "user" = None \/ exists t, dict_get (heap s body) "user" = Some (PStr t)) ->
  heap (snd (O1Mini.pipe post self um mid messages body s)) = heap s.
Proof.
  intro Hu.
  assert (Hr : remap_user (heap s body) = Ok (heap s body))
    by (unfold remap_user; destruct Hu as [->|[t ->]]; reflexivity).
  rewrite (RunO1Mini.o1_pipe_run post self um mid messages body s _ Hr). simpl.
  unfold O1MiniRun.set_body. simpl. extensionality l.
  destruct (Nat.eqb l body) eqn:E; [apply Nat.eqb_eq in E; now subst|reflexivity].
Qed.

(** Frame (both pipelines): a [pipe] call changes no dict other than the
    caller's body and makes at most one network call, appended to those
    already made. *)
Theorem X_pipe_frame cb cs dself dum dmid dmessages post oself oum omid omessages body s :
  (forall l, l <> body ->
     heap (snd (DeepSeekR1.pipe cb cs dself dum dmid dmessages body s)) l = heap s l /\
     heap (snd (O1Mini.pipe post oself oum omid omessages body s)) l = heap s l) /\
  (exists extra, length extra <= 1 /\
     calls (snd (DeepSeekR1.pipe cb cs dself dum dmid dmessages body s)) = calls s ++ extra) /\
  (exists extra, length extra <= 1 /\
     calls (snd (O1Mini.pipe post oself oum omid omessages body s)) = calls s ++ extra).
Proof.
  split; [|split].
  - intros l Hl. split.
    + rewrite PipeFacts.ds_heap. apply Nat.eqb_neq in Hl. now rewrite Hl.
    + destruct (remap_user (heap s body)) as [b|e] eqn:Hr.
      * rewrite (RunO1Mini.o1_pipe_run post oself oum omid omessages body s b Hr). simpl.
        unfold O1MiniRun.set_body. simpl. apply Nat.eqb_neq in Hl. now rewrite Hl.
      * now rewrite (RunO1Mini.pipe_user_raise post oself oum omid omessages body s e Hr).
  - destruct (normalize dmessages) as [ds|e] eqn:Hn.
    + rewrite (PipeFacts.ds_calls _ _ _ _ _ _ _ _ _ Hn). eexists; split; [|reflexivity]. simpl. lia.
    + exists []. split; [simpl; lia|]. rewrite RunDeepSeek.ds_pipe_run, Hn. simpl.
      now rewrite app_nil_r.
  - destruct (remap_user (heap s body)) as [b|e] eqn:Hr.
    + rewrite (RunO1Mini.o1_pipe_run post oself oum omid omessages body s b Hr).
      eexists; split; [|reflexivity]. simpl. lia.
    + rewrite (RunO1Mini.pipe_user_raise post oself oum omid omessages body s e Hr).
      exists []. split; [simpl; lia|]. simpl. now rewrite app_nil_r.
Qed.

End Extras.

Module ExtraWitnesses.
Import Py Eff Obs Inputs ExtraInputs Extras.
Local Open Scope list_scope.

Lemma X_malformed_message_no_call_witness :
  let ms := [mk_msg "user" "hi"; [("content", PStr "x")]] in
  exists k, (k = "role" \/ k = "content") /\
    fst (DeepSeekR1.pipe unreachable_blocking (stream_answer []) (DeepSeekR1.init no_env)
           "hi" "DeepSeekR1" ms 0 (with_body [])) = Ok (RStr (error_envelope (repr_str k))) /\
    calls (snd (DeepSeekR1.pipe unreachable_blocking (stream_answer []) (DeepSeekR1.init no_env)
                  "hi" "DeepSeekR1" ms 0 (with_body []))) = calls (with_body []).
Proof.
  intro ms. apply X_malformed_message_no_call.
  apply Exists_cons_tl, Exists_cons_hd. reflexivity.
Defined.

Lemma X_no_system_plain_messages_witness :
  let ms := [mk_msg "user" "u"; mk_msg "tool" "t"; [("role", PNone); ("content", PStr "c")]] in
  DeepSeekR1.pop_system_message ms = Ok (PStr "", ms) /\
  normalize ms = Ok (map plain_message ms).
Proof.
  intro ms. apply X_no_system_plain_messages.
  repeat constructor.
Defined.

Lemma X_valves_take_effect_after_update_witness :
  let p := DeepSeekR1.init no_env in
  let p1 := {| DeepSeekR1.valves := new_valves; DeepSeekR1.client := DeepSeekR1.client p |} in
  let ms := [mk_msg "user" "hi"] in
  (exists st params,
     calls (snd (DeepSeekR1.pipe unreachable_blocking (stream_answer []) p1 "hi" "DeepSeek-R1"
                   ms 0 (with_body []))) =
       calls (with_body []) ++
         [AzureComplete (DeepSeekR1.cl_endpoint (DeepSeekR1.client p))
            (DeepSeekR1.cl_credential (DeepSeekR1.client p))
            (DeepSeekR1.MODEL_ID new_valves) [UserMessage (PStr "hi")] st params]) /\
  (exists st params,
     calls (snd (DeepSeekR1.pipe unreachable_blocking (stream_answer [])
                   (DeepSeekR1.on_valves_updated p1) "hi" "DeepSeek-R1" ms 0 (with_body []))) =
       calls (with_body []) ++
         [AzureComplete (DeepSeekR1.AZURE_INFERENCE_ENDPOINT new_valves)
            (DeepSeekR1.AZURE_INFERENCE_CREDENTIAL new_valves)
            (DeepSeekR1.MODEL_ID new_valves) [UserMessage (PStr "hi")] st params]).
Proof.
  intros p p1 ms. apply X_valves_take_effect_after_update. reflexivity.
Defined.

Lemma X_deepseek_forwarded_parameters_witness :
  let b := [("user", PStr "u1"); ("temperature", PFloat "0.5"); ("stream", PBool true);
            ("seed", PInt 7)] in
  exists params,
    calls (snd (DeepSeekR1.pipe unreachable_blocking (stream_answer []) (DeepSeekR1.init no_env)
                  "hi" "DeepSeekR1" [mk_msg "user" "hi"] 0 (with_body b))) =
      calls (with_body b) ++
        [DeepSeekRun.call_of (DeepSeekR1.init no_env) [UserMessage (PStr "hi")]
           (truthy (dict_get_default (heap (with_body b) 0) "stream" (PBool false))) params] /\
    forall k, dict_get params k =
      if existsb (String.eqb k) DeepSeekR1.allowed_params then dict_get (heap (with_body b) 0) k
      else None.
Proof.
  intro b. apply X_deepseek_forwarded_parameters. reflexivity.
Defined.

Lemma X_stream_failure_envelope_witness :
  let b := [("stream", PBool true)] in
  fst (DeepSeekR1.pipe unreachable_blocking broken_stream (DeepSeekR1.init no_env)
         "hi" "DeepSeekR1" [mk_msg "user" "hi"] 0 (with_body b)) =
    Ok (RStr (error_envelope (exc_str (Exc AzureHttpResponseError "Connection broken")))).
Proof.
  intro b. apply X_stream_failure_envelope with (ds := [UserMessage (PStr "hi")]).
  - reflexivity.
  - reflexivity.
  - left. eexists. reflexivity.
Defined.

Lemma X_blocking_failure_results_witness :
  let params := filter_keys DeepSeekR1.allowed_params (DeepSeekRun.popped (heap (with_body []) 0)) in
  (forall e, unreachable_blocking (DeepSeekR1.client (DeepSeekR1.init no_env)) "DeepSeekR1"
               [UserMessage (PStr "hi")] params = Raise e ->
     fst (DeepSeekR1.pipe unreachable_blocking (stream_answer []) (DeepSeekR1.init no_env)
            "hi" "DeepSeekR1" [mk_msg "user" "hi"] 0 (with_body [])) =
       Ok (RStr (error_envelope (exc_str e)))) /\
  (unreachable_blocking (DeepSeekR1.client (DeepSeekR1.init no_env)) "DeepSeekR1"
     [UserMessage (PStr "hi")] params = Ok [] ->
   fst (DeepSeekR1.pipe unreachable_blocking (stream_answer []) (DeepSeekR1.init no_env)
          "hi" "DeepSeekR1" [mk_msg "user" "hi"] 0 (with_body [])) = Ok (RStr "")).
Proof.
  intro params. apply X_blocking_failure_results.
  - reflexivity.
  - reflexivity.
Defined.

Lemma X_o1_http_error_text_witness :
  fst (O1Mini.pipe (http_answer service_unavailable) (O1Mini.init no_env) "hi" "o1-mini"
         [mk_msg "user" "hi"] 0 (with_body [("stream", PBool true)])) =
    Ok (RStr ("Error: " ++ ("Request failed: " ++ http_error_text service_unavailable) ++
              " | Details: " ++ str (PDict [("error", PStr "busy")]))) /\
  fst (O1Mini.pipe (http_answer broken_gateway) (O1Mini.init no_env) "hi" "o1-mini"
         [mk_msg "user" "hi"] 0 (with_body [("stream", PBool true)])) =
    Raise (O1Mini.json_error broken_gateway).
Proof.
  split.
  - apply X_o1_http_error_text with (b := [("stream", PBool true)]) (r := service_unavailable).
    + reflexivity.
    + reflexivity.
    + simpl. lia.
  - apply X_o1_http_error_text with (b := [("stream", PBool true)]) (r := broken_gateway).
    + reflexivity.
    + reflexivity.
    + simpl. lia.
Defined.

Lemma X_o1_non_json_success_witness :
  fst (O1Mini.pipe (http_answer html_page) (O1Mini.init no_env) "hi" "o1-mini"
         [mk_msg "user" "hi"] 0 (with_body [("temperature", PFloat "1.0")])) =
    Ok (RStr ("Error: " ++ ("Request failed: " ++ exc_str (O1Mini.json_error html_page)) ++
              " | Response Text: " ++ O1Mini.text html_page)).
Proof.
  apply X_o1_non_json_success with (b := [("temperature", PFloat "1.0")]) (r := html_page).
  - reflexivity.
  - reflexivity.
  - left. simpl. lia.
  - reflexivity.
  - reflexivity.
Defined.

Lemma X_o1_user_dict_replaced_witness :
  let u := [("name", PStr "ann")] in
  let b := [("user", PDict u); ("stream", PBool false)] in
  heap (snd (O1Mini.pipe (http_answer no_choices) (O1Mini.init no_env) "hi" "o1-mini"
               [mk_msg "user" "hi"] 0 (with_body b))) 0 =
    dict_set (heap (with_body b) 0) "user" (dict_get_default u "id" (PStr (repr (PDict u)))) /\
  exists json st,
    calls (snd (O1Mini.pipe (http_answer no_choices) (O1Mini.init no_env) "hi" "o1-mini"
                  [mk_msg "user" "hi"] 0 (with_body b))) =
      calls (with_body b) ++ [HttpPost (o1_url (O1Mini.init no_env)) (o1_headers (O1Mini.init no_env)) json st] /\
    dict_get json "user" = Some (dict_get_default u "id" (PStr (repr (PDict u)))).
Proof.
  intros u b. apply X_o1_user_dict_replaced. reflexivity.
Defined.

Lemma X_o1_user_attribute_error_witness :
  O1Mini.pipe (http_answer no_choices) (O1Mini.init no_env) "hi" "o1-mini"
    [mk_msg "user" "hi"] 0 (with_body [("user", PNone)]) =
    (Raise (Exc AttributeError
              (sq ++ O1Mini.py_type_name PNone ++ sq ++ " object has no attribute " ++ sq ++ "get" ++ sq)),
     with_body [("user", PNone)]).
Proof.
  apply X_o1_user_attribute_error.
  - reflexivity.
  - reflexivity.
  - intros d H. discriminate H.
Defined.

Lemma X_o1_request_sent_witness :
  let b := [("user", PStr "ann"); ("chat_id", PStr "c1"); ("stream", PBool false)] in
  exists json,
    calls (snd (O1Mini.pipe (http_answer no_choices) (O1Mini.init no_env) "hi" "o1-mini"
                  [mk_msg "user" "hi"] 0 (with_body b))) =
      calls (with_body b) ++ [HttpPost (o1_url (O1Mini.init no_env)) (o1_headers (O1Mini.init no_env)) json
                                (dict_get_default b "stream" (PBool false))] /\
    forall k, dict_get json k =
      if existsb (String.eqb k) O1Mini.allowed_params then dict_get b k else None.
Proof.
  intro b. apply X_o1_request_sent. reflexivity.
Defined.

Lemma X_o1_body_untouched_witness :
  let b := [("user", PStr "ann"); ("chat_id", PStr "c1")] in
  heap (snd (O1Mini.pipe (http_answer no_choices) (O1Mini.init no_env) "hi" "o1-mini"
               [mk_msg "user" "hi"] 0 (with_body b))) = heap (with_body b).
Proof.
  intro b. apply X_o1_body_untouched. right. eexists. reflexivity.
Defined.

Lemma X_pipe_frame_witness :
  let b := [("user", PDict [("id", PStr "u1")]); ("title", PStr "t")] in
  (forall l, l <> 0 ->
     heap (snd (DeepSeekR1.pipe unreachable_blocking broken_stream (DeepSeekR1.init no_env)
                  "hi" "DeepSeekR1" [mk_msg "user" "hi"] 0 (with_body b))) l = heap (with_body b) l /\
     heap (snd (O1Mini.pipe (http_answer no_choices) (O1Mini.init no_env) "hi" "o1-mini"
                  [mk_msg "user" "hi"] 0 (with_body b))) l = heap (with_body b) l) /\
  (exists extra, length extra <= 1 /\
     calls (snd (DeepSeekR1.pipe unreachable_blocking broken_stream (DeepSeekR1.init no_env)
                   "hi" "DeepSeekR1" [mk_msg "user" "hi"] 0 (with_body b))) = calls (with_body b) ++ extra) /\
  (exists extra, length extra <= 1 /\
     calls (snd (O1Mini.pipe (http_answer no_choices) (O1Mini.init no_env) "hi" "o1-mini"
                   [mk_msg "user" "hi"] 0 (with_body b))) = calls (with_body b) ++ extra).
Proof.
  intro b. apply X_pipe_frame.
Defined.

End ExtraWitnesses.
